(** * did-jwt: the signature verifier of [src/VerifierAlgorithm.ts]

    A shallow embedding of the verifier module and the properties its
    specification states about it.

    - JavaScript exceptions are an error monad, [result]; an exception is the
      message of its [Error].
    - A [PublicKey] descriptor is an object; the candidate array holds
      references ([loc]) into a read-only [heap], so that "the same object"
      is equality of references.
    - The imported collaborators (elliptic, \@stablelib, ./Digest, ./util)
      are the fields of the class [Collaborators]; each one that can throw
      returns a [result]. *)

From Stdlib Require Import List String Ascii ZArith NArith Bool Lia.
From Stdlib.Strings Require Import Byte.
Import ListNotations.
Local Open Scope string_scope.
Local Open Scope Z_scope.

Set Implicit Arguments.

(** ** Exceptions *)

Inductive result (A : Type) : Type :=
| Ok (a : A)
| Throw (msg : string).
Arguments Ok {A} a.
Arguments Throw {A} msg.

Definition bind {A B : Type} (m : result A) (k : A -> result B) : result B :=
  match m with
  | Ok a => k a
  | Throw e => Throw e
  end.

Notation "x <- m ;; k" := (bind m (fun x => k))
  (at level 61, m at next level, right associativity).

(** [try { return body } catch (err) { return dflt }] *)
Definition try_catch {A : Type} (body : result A) (dflt : A) : A :=
  match body with
  | Ok a => a
  | Throw _ => dflt
  end.

(** [Array.prototype.map] with a callback that may throw: the elements are
    visited from left to right and the first exception leaves the loop. *)
Fixpoint mapM {A B : Type} (f : A -> result B) (l : list A) : result (list B) :=
  match l with
  | [] => Ok []
  | x :: tl =>
      y <- f x ;;
      ys <- mapM f tl ;;
      Ok (y :: ys)
  end.

(** [Array.prototype.find] with a predicate that may throw. *)
Fixpoint findM {A : Type} (p : A -> result bool) (l : list A) : result (option A) :=
  match l with
  | [] => Ok None
  | x :: tl =>
      b <- p x ;;
      if b then Ok (Some x) else findM p tl
  end.

(** The three messages the module throws itself. *)
Definition wrong_signature_length : string := "wrong signature length".
Definition signature_invalid : string := "Signature invalid for JWT".
Definition unsupported_algorithm (alg : string) : string :=
  "Unsupported algorithm " ++ alg.

(** ** Data *)

Definition bytes := list byte.

(** did-resolver's [PublicKey]: three mandatory strings and the optional key
    encodings this module reads. *)
Record PublicKey : Type := mkPublicKey {
  id : string;
  type : string;
  controller : string;
  publicKeyHex : option string;
  ethereumAddress : option string;
  publicKeyBase64 : option string
}.

(** Object references. *)
Definition loc := nat.

(** [EcdsaSignature] of ./util: [{ r: string, s: string, recoveryParam?: number }]. *)
Record EcdsaSignature : Type := mkSig {
  r : string;
  s : string;
  recoveryParam : option Z
}.

(** [{ ...so, recoveryParam: v }] *)
Definition with_recoveryParam (so : EcdsaSignature) (v : Z) : EcdsaSignature :=
  mkSig (r so) (s so) (Some v).

(** [Uint8Array.prototype.slice(from, to)] for [0 <= from <= to]. *)
Definition slice (raw : bytes) (from to : nat) : bytes :=
  firstn (to - from) (skipn from raw).

(** [rawsig[i]] as a number; an index out of range reads [undefined], which
    the length check of [toSignatureObject] excludes. *)
Definition byte_at (raw : bytes) (i : nat) : Z :=
  Z.of_N (Byte.to_N (nth i raw "000"%byte)).

(** [x === y] for an optional string field [x] and a string [y]:
    [undefined] is equal to no string. *)
Definition field_eqb (x : option string) (y : string) : bool :=
  match x with
  | Some v => String.eqb v y
  | None => false
  end.

(** [typeof x !== 'undefined'] *)
Definition defined {A : Type} (x : option A) : bool :=
  match x with
  | Some _ => true
  | None => false
  end.

(** Truthiness of an optional number: [undefined] and [0] are falsy. *)
Definition truthy_number (n : option Z) : bool :=
  match n with
  | Some v => negb (v =? 0)
  | None => false
  end.

(** ** Collaborators

    What the module imports and does not implement. [KeyPair] is what
    [secp256k1.keyFromPublic] returns and [Point] what
    [secp256k1.recoverPubKey] returns. *)
Class Collaborators : Type := {
  KeyPair : Type;
  Point : Type;
  (* ./util *)
  base64urlToBytes : string -> result bytes;
  base64ToBytes : option string -> result bytes;
  bytesToHex : bytes -> string;
  (* ./Digest *)
  sha256 : string -> bytes;
  hashPersonalMessage : string -> bytes;
  toEthereumAddress : string -> string;
  (* @stablelib/utf8 *)
  encode : string -> bytes;
  (* elliptic *)
  keyFromPublic : option string -> result KeyPair;
  ecVerify : KeyPair -> bytes -> EcdsaSignature -> result bool;
  recoverPubKey : bytes -> EcdsaSignature -> option Z -> result Point;
  encodePoint : Point -> bool -> string;
  (* @stablelib/ed25519 *)
  edVerify : bytes -> bytes -> bytes -> result bool
}.

(** ** The module *)

(** [calculateSigRecovery(v, chainId?)]. JavaScript numbers are doubles;
    [v] and [chainId] are integers here, on which the arithmetic below is
    that of the code as long as every intermediate value stays below 2^53
    in magnitude. [v] is a byte wherever the module calls this function; the
    theorems that compute with a chain id keep it within what a byte
    carries. *)
Definition calculateSigRecovery (v : Z) (chainId : option Z) : Z :=
  if v <? 27 then v
  else if truthy_number chainId
       then v - (2 * match chainId with Some c => c | None => 0 end + 35)
       else v - 27.

(** The recovery value that [personalSign] of the test suite writes into a
    signature: [ecsign] returns [v] as 27 or 28, and
    [sig.v = chainId ? sig.v + (chainId * 2 + 35) - 27 : sig.v]. Integers
    stand for the doubles of the code, as for [calculateSigRecovery]; the
    theorems keep the value within the byte that the signature has for it. *)
Definition personalSign_v (v : Z) (chainId : option Z) : Z :=
  if truthy_number chainId
  then v + (match chainId with Some c => c | None => 0 end * 2 + 35) - 27
  else v.

(** Which raw recovery values [calculateSigRecovery] sends into {0, 1}. *)
Definition conventional (v : Z) (chainId : option Z) : Prop :=
  v = 0 \/ v = 1
  \/ (truthy_number chainId = false /\ (v = 27 \/ v = 28))
  \/ (exists c, chainId = Some c /\ c <> 0 /\ 27 <= v /\ (v = 2 * c + 35 \/ v = 2 * c + 36)).

Section Verifier.

Context {C : Collaborators}.
Variable heap : loc -> PublicKey.

(** [toSignatureObject(signature, recoverable = false, chainId?)] *)
Definition toSignatureObject (signature : string) (recoverable : bool)
    (chainId : option Z) : result EcdsaSignature :=
  rawsig <- base64urlToBytes signature ;;
  if negb (List.length rawsig =? (if recoverable then 65 else 64))%nat
  then Throw wrong_signature_length
  else
    let r := bytesToHex (slice rawsig 0 32) in
    let s := bytesToHex (slice rawsig 32 64) in
    let sigObj := mkSig r s None in
    Ok (if recoverable
        then with_recoveryParam sigObj (calculateSigRecovery (byte_at rawsig 64) chainId)
        else sigObj).

(** [sha256OrPersonal] *)
Definition sha256OrPersonal (data : string) (ethPersonal : bool) : bytes :=
  if negb ethPersonal then sha256 data else hashPersonalMessage data.

(** The callback of [verifyES256K]'s [find]: the key is decoded and the
    signature verified inside [try]; [catch] answers [false]. *)
Definition verifies (hash : bytes) (sigObj : EcdsaSignature) (a : loc) : bool :=
  try_catch
    (key <- keyFromPublic (publicKeyHex (heap a)) ;;
     ecVerify key hash sigObj)
    false.

(** The callback of [checkSignatureAgainstSigner]'s [find]. *)
Definition matches_recovered (recoveredPublicKeyHex recoveredCompressedPublicKeyHex
    recoveredAddress : string) (a : loc) : bool :=
  field_eqb (publicKeyHex (heap a)) recoveredPublicKeyHex
  || field_eqb (publicKeyHex (heap a)) recoveredCompressedPublicKeyHex
  || field_eqb (ethereumAddress (heap a)) recoveredAddress.

(** [checkSignatureAgainstSigner(data, authenticators, ethPersonal)(sigObj)];
    [None] is the [undefined] of a [find] without a match. *)
Definition checkSignatureAgainstSigner (data : string) (authenticators : list loc)
    (ethPersonal : bool) (sigObj : EcdsaSignature) : result (option loc) :=
  let hash := sha256OrPersonal data ethPersonal in
  recoveredKey <- recoverPubKey hash sigObj (recoveryParam sigObj) ;;
  let recoveredPublicKeyHex := encodePoint recoveredKey false in
  let recoveredCompressedPublicKeyHex := encodePoint recoveredKey true in
  let recoveredAddress := toEthereumAddress recoveredPublicKeyHex in
  Ok (find (matches_recovered recoveredPublicKeyHex recoveredCompressedPublicKeyHex
              recoveredAddress) authenticators).

(** [.filter(key => key != null)] *)
Fixpoint non_null {A : Type} (l : list (option A)) : list A :=
  match l with
  | [] => []
  | Some x :: tl => x :: non_null tl
  | None :: tl => non_null tl
  end.

(** The array [signatures] that [verifyRecoverableES256K] builds. *)
Definition signatures_of (signature : string) (chainId : option Z)
    : result (list EcdsaSignature) :=
  if (86 <? String.length signature)%nat
  then
    so <- toSignatureObject signature true chainId ;;
    Ok [so]
  else
    so <- toSignatureObject signature false chainId ;;
    Ok [with_recoveryParam so 0; with_recoveryParam so 1].

(** [verifyRecoverableES256K(data, signature, authenticators, ethPersonal = false, chainId?)] *)
Definition verifyRecoverableES256K (data signature : string) (authenticators : list loc)
    (ethPersonal : bool) (chainId : option Z) : result loc :=
  signatures <- signatures_of signature chainId ;;
  found <- mapM (checkSignatureAgainstSigner data authenticators ethPersonal) signatures ;;
  let signer := non_null found in
  match signer with
  | [] => Throw signature_invalid
  | first :: _ => Ok first
  end.

(** [verifyES256K(data, signature, authenticators, ethPersonal = false)] *)
Definition verifyES256K (data signature : string) (authenticators : list loc)
    (ethPersonal : bool) : result loc :=
  let hash := sha256OrPersonal data ethPersonal in
  sigObj <- toSignatureObject signature false None ;;
  let fullPublicKeys := filter (fun a => defined (publicKeyHex (heap a))) authenticators in
  let ethAddressKeys := filter (fun a => defined (ethereumAddress (heap a))) authenticators in
  let signer := find (verifies hash sigObj) fullPublicKeys in
  signer <- match signer with
            | None =>
                if (0 <? List.length ethAddressKeys)%nat
                then
                  k <- verifyRecoverableES256K data signature ethAddressKeys ethPersonal None ;;
                  Ok (Some k)
                else Ok None
            | Some k => Ok (Some k)
            end ;;
  match signer with
  | None => Throw signature_invalid
  | Some k => Ok k
  end.

(** The callback of [verifyEd25519]'s [find]; nothing is caught here. *)
Definition ed_accepts (clear sig : bytes) (a : loc) : result bool :=
  key <- base64ToBytes (publicKeyBase64 (heap a)) ;;
  edVerify key clear sig.

(** [verifyEd25519(data, signature, authenticators)] *)
Definition verifyEd25519 (data signature : string) (authenticators : list loc)
    : result loc :=
  let clear := encode data in
  sig <- base64urlToBytes signature ;;
  signer <- findM (ed_accepts clear sig) authenticators ;;
  match signer with
  | None => Throw signature_invalid
  | Some k => Ok k
  end.

(** *** The dispatcher *)

(** The three functions the table [algorithms] binds. *)
Inductive Verifier : Type :=
| VerifyES256K
| VerifyRecoverableES256K
| VerifyEd25519.

(** A call through the type [Verifier]: five arguments, of which each
    function takes as many as it declares; an [undefined] fourth argument
    takes the default [false]. *)
Definition call (impl : Verifier) (data signature : string) (authenticators : list loc)
    (eip155 : option bool) (chainId : option Z) : result loc :=
  let ethPersonal := match eip155 with Some b => b | None => false end in
  match impl with
  | VerifyES256K => verifyES256K data signature authenticators ethPersonal
  | VerifyRecoverableES256K =>
      verifyRecoverableES256K data signature authenticators ethPersonal chainId
  | VerifyEd25519 => verifyEd25519 data signature authenticators
  end.

End Verifier.

(** What [algorithms[alg]] can evaluate to: a function of the table, or a
    member that the object literal inherits from [Object.prototype]. *)
Inductive Property : Type :=
| Own (impl : Verifier)
| Inherited (name : string).

(** The own properties of the object literal [algorithms]. *)
Definition algorithms : list (string * Verifier) :=
  [ ("ES256K", VerifyES256K);
    ("ES256K-R", VerifyRecoverableES256K);
    ("Ed25519", VerifyEd25519);
    ("EdDSA", VerifyEd25519) ].

(** The property names of [Object.prototype], the prototype of every object
    literal. Each of them reads as a function, or for [__proto__] as the
    prototype object itself: a truthy value. *)
Definition Object_prototype : list string :=
  [ "constructor"; "__defineGetter__"; "__defineSetter__"; "hasOwnProperty";
    "__lookupGetter__"; "__lookupSetter__"; "isPrototypeOf";
    "propertyIsEnumerable"; "toString"; "valueOf"; "__proto__";
    "toLocaleString" ].

Fixpoint assoc {A : Type} (k : string) (l : list (string * A)) : option A :=
  match l with
  | [] => None
  | (k', v) :: tl => if String.eqb k k' then Some v else assoc k tl
  end.

(** [obj[key]] on [algorithms]: own properties first, then the prototype;
    [None] is [undefined]. *)
Definition get (alg : string) : option Property :=
  match assoc alg algorithms with
  | Some impl => Some (Own impl)
  | None =>
      if existsb (String.eqb alg) Object_prototype
      then Some (Inherited alg)
      else None
  end.

(** [VerifierAlgorithm(alg)] *)
Definition VerifierAlgorithm (alg : string) : result Property :=
  match get alg with
  | None => Throw (unsupported_algorithm alg)
  | Some impl => Ok impl
  end.

(** ** A sample instance of the collaborators

    Used to run the verifier on concrete inputs. The codecs are the usual
    ones (base64 over both alphabets, lower-case hex). The cryptography is a
    stand-in with the interface and the failure modes of the real one: a
    point is an x coordinate (64 hex digits) and the parity of y; a signature
    verifies under a key when its [r] is the key's x coordinate. *)
Module Sample.

Fixpoint replicate (n : nat) (c : string) : string :=
  match n with
  | O => ""
  | S n' => c ++ replicate n' c
  end.

(** The value of a base64 digit, in the standard or the URL-safe alphabet. *)
Definition sextet (c : ascii) : option N :=
  let n := N_of_ascii c in
  if ((65 <=? n) && (n <=? 90))%N then Some (n - 65)%N
  else if ((97 <=? n) && (n <=? 122))%N then Some (n - 71)%N
  else if ((48 <=? n) && (n <=? 57))%N then Some (n + 4)%N
  else if ((n =? 45) || (n =? 43))%N then Some 62%N
  else if ((n =? 95) || (n =? 47))%N then Some 63%N
  else None.

Definition to_byte (n : N) : byte :=
  match Byte.of_N (n mod 256) with
  | Some b => b
  | None => "000"%byte
  end.

Fixpoint sextets (str : string) : result (list N) :=
  match str with
  | EmptyString => Ok []
  | String c tl =>
      match sextet c with
      | Some v => vs <- sextets tl ;; Ok (v :: vs)
      | None => Throw "Base64Coder: incorrect characters for decoding"
      end
  end.

Fixpoint octets (vs : list N) : result bytes :=
  match vs with
  | a :: b :: c :: d :: tl =>
      let v := (((a * 64 + b) * 64 + c) * 64 + d)%N in
      rest <- octets tl ;;
      Ok (to_byte (v / 65536) :: to_byte (v / 256) :: to_byte v :: rest)
  | [a; b; c] =>
      let v := ((a * 64 + b) * 64 + c)%N in
      Ok [to_byte (v / 1024); to_byte (v / 4)]
  | [a; b] => Ok [to_byte ((a * 64 + b) / 16)]
  | [_] => Throw "Base64Coder: incorrect characters for decoding"
  | [] => Ok []
  end.

Fixpoint strip_padding (str : string) : string :=
  match str with
  | EmptyString => EmptyString
  | String c tl =>
      match strip_padding tl with
      | EmptyString => if Ascii.eqb c "=" then EmptyString else String c EmptyString
      | tl' => String c tl'
      end
  end.

(** base64url as the compact serialization writes it: no padding. *)
Definition decode_base64url (str : string) : result bytes :=
  vs <- sextets str ;;
  octets vs.

(** base64 with its trailing padding. *)
Definition decode_base64 (str : string) : result bytes :=
  vs <- sextets (strip_padding str) ;;
  octets vs.

Definition hex_digit (n : N) : ascii :=
  match n with
  | 0%N => "0" | 1%N => "1" | 2%N => "2" | 3%N => "3" | 4%N => "4"
  | 5%N => "5" | 6%N => "6" | 7%N => "7" | 8%N => "8" | 9%N => "9"
  | 10%N => "a" | 11%N => "b" | 12%N => "c" | 13%N => "d" | 14%N => "e"
  | _ => "f"
  end%char.

Fixpoint hex (raw : bytes) : string :=
  match raw with
  | [] => ""
  | b :: tl =>
      let n := Byte.to_N b in
      String (hex_digit (n / 16)) (String (hex_digit (n mod 16)) (hex tl))
  end.

Definition zeros : string := replicate 64 "0".
Definition ones : string := replicate 64 "1".

(** [x] and the parity of [y]. *)
Definition point : Type := (string * bool)%type.

Definition encode_point (p : point) (compact : bool) : string :=
  let (x, odd) := p in
  if compact then (if odd then "03" else "02") ++ x
  else "04" ++ x ++ (if odd then ones else zeros).

Definition decode_point (key : option string) : result point :=
  match key with
  | None => Throw "TypeError: Cannot read property 'length' of undefined"
  | Some h =>
      let x := substring 2 64 h in
      let y := substring 66 64 h in
      if (prefix "04" h && (String.length h =? 130)%nat)%bool then
        if String.eqb y zeros then Ok (x, false)
        else if String.eqb y ones then Ok (x, true)
        else Throw "invalid point"
      else if (prefix "02" h && (String.length h =? 66)%nat)%bool then Ok (x, false)
      else if (prefix "03" h && (String.length h =? 66)%nat)%bool then Ok (x, true)
      else Throw "Unknown point format"
  end.

Definition recover (hash : bytes) (sigObj : EcdsaSignature) (j : option Z)
    : result point :=
  match j with
  | Some 0 => Ok (r sigObj, false)
  | Some 1 => Ok (r sigObj, true)
  | _ => Throw "The recovery param is more than two bits"
  end.

Definition bytes_eqb (a b : bytes) : bool :=
  String.eqb (string_of_list_byte a) (string_of_list_byte b).

Definition ed_verify (key clear sig : bytes) : result bool :=
  if negb (List.length sig =? 64)%nat
  then Throw "ed25519: signature must be 64 bytes"
  else Ok ((List.length key =? 32)%nat && bytes_eqb (firstn 32 sig) key)%bool.

#[export] Instance collaborators : Collaborators := {|
  KeyPair := point;
  Point := point;
  base64urlToBytes := decode_base64url;
  base64ToBytes := fun str =>
    match str with
    | Some v => decode_base64 v
    | None => Throw "TypeError: Cannot read property 'length' of undefined"
    end;
  bytesToHex := hex;
  sha256 := list_byte_of_string;
  hashPersonalMessage := fun data => list_byte_of_string ("E" ++ data);
  toEthereumAddress := fun h => "0x" ++ substring (String.length h - 40) 40 h;
  encode := list_byte_of_string;
  keyFromPublic := decode_point;
  ecVerify := fun key _ sigObj => Ok (String.eqb (r sigObj) (fst key));
  recoverPubKey := recover;
  encodePoint := encode_point;
  edVerify := ed_verify
|}.

(** Descriptors in the shape of the test suite's. *)
Definition descriptor (n : string) (h a b : option string) : PublicKey :=
  mkPublicKey ("did:uport:2nQtiQG6Cgm1GYTBaaKAgr76uY7iSexUkqX#keys-" ++ n)
    "Secp256k1VerificationKey2018" "did:uport:2nQtiQG6Cgm1GYTBaaKAgr76uY7iSexUkqX"
    h a b.

(** The key whose x coordinate is all zeros, in its three encodings. *)
Definition publicKey : string := "04" ++ zeros ++ zeros.
Definition compressedPublicKey : string := "02" ++ zeros.
Definition address : string := "0x" ++ replicate 40 "0".

Definition ecKey1 := descriptor "1" (Some ("04" ++ ones ++ zeros)) None None.
Definition ecKey2 := descriptor "2" (Some publicKey) None None.
Definition ethAddress := descriptor "3" None (Some address) None.
Definition compressedKey := descriptor "4" (Some compressedPublicKey) None None.
Definition edKey :=
  descriptor "5" None None (Some (replicate 43 "A" ++ "=")).
Definition edKey2 :=
  descriptor "6" None None (Some ("B" ++ replicate 42 "A" ++ "=")).
Definition malformedKey1 := descriptor "7" (Some ("05" ++ zeros ++ zeros)) None None.
Definition malformedKey2 := descriptor "8" (Some (publicKey ++ "aabbccdd")) None None.
Definition malformedKey3 := descriptor "8" (Some ("04" ++ zeros)) None None.
Definition malformedEdKey := descriptor "9" None None (Some "not base64!").

(** The objects of the sample heap, by reference. *)
Definition heap (l : loc) : PublicKey :=
  nth l [ ecKey1; ecKey2; ethAddress; compressedKey; edKey; edKey2;
          malformedKey1; malformedKey2; malformedKey3; malformedEdKey ] ecKey1.

(** The same objects with other metadata: another id, type and controller
    around the same key material. *)
Definition relabelled (l : loc) : PublicKey :=
  mkPublicKey "did:example:123#owner" "Ed25519VerificationKey2018" "did:example:123"
    (publicKeyHex (heap l)) (ethereumAddress (heap l)) (publicKeyBase64 (heap l)).

(** The key with the same x coordinate and the other parity, compressed,
    and a heap that holds it at reference 0. *)
Definition oddKey := descriptor "10" (Some ("03" ++ zeros)) None None.

Definition heap_odd (l : loc) : PublicKey :=
  match l with
  | O => oddKey
  | _ => heap l
  end.

(** 64 zero bytes in base64url: what a compact signature looks like. *)
Definition compact_signature : string := replicate 86 "A".

(** 65 bytes in base64url, the last of which is the recovery byte. *)
Definition signature_v0 : string := replicate 86 "A" ++ "A".
Definition signature_v2 : string := replicate 86 "A" ++ "I".
Definition signature_v27 : string := replicate 85 "A" ++ "Bs".
Definition signature_v97 : string := replicate 85 "A" ++ "GE".
Definition signature_v35 : string := replicate 85 "A" ++ "CM".
Definition signature_v5 : string := replicate 86 "A" ++ "U".

(** *** A signature that the real primitive accepts

    RFC 8032, section 7.1, test 1: a public key and its signature of the
    empty message, in hexadecimal. *)
Definition rfc8032_public_key : string :=
  "d75a980182b10ab7d54bfed3c964073a0ee172f3daa62325af021a68f707511a".

Definition rfc8032_signature : string :=
  "e5564300c360ac729086e2cc806e828a84877f1eb8e5d974d873e065224901555fb8821590a33bacc61e39701cf9b46bd25bf5f0595bbe24655141438e7a100b".

(** Ed25519 verification as far as this vector tells: a signature that is
    not 64 bytes long throws, the vector is accepted, the rest is rejected. *)
Definition ed_verify_rfc8032 (key clear sig : bytes) : result bool :=
  if negb (List.length sig =? 64)%nat
  then Throw "ed25519: signature must be 64 bytes"
  else Ok (String.eqb (hex key) rfc8032_public_key
           && (List.length clear =? 0)%nat
           && String.eqb (hex sig) rfc8032_signature)%bool.

(** The sample collaborators with that verification. *)
Definition vector_collaborators : Collaborators := {|
  KeyPair := point;
  Point := point;
  base64urlToBytes := decode_base64url;
  base64ToBytes := fun str =>
    match str with
    | Some v => decode_base64 v
    | None => Throw "TypeError: Cannot read property 'length' of undefined"
    end;
  bytesToHex := hex;
  sha256 := list_byte_of_string;
  hashPersonalMessage := fun data => list_byte_of_string ("E" ++ data);
  toEthereumAddress := fun h => "0x" ++ substring (String.length h - 40) 40 h;
  encode := list_byte_of_string;
  keyFromPublic := decode_point;
  ecVerify := fun key _ sigObj => Ok (String.eqb (r sigObj) (fst key));
  recoverPubKey := recover;
  encodePoint := encode_point;
  edVerify := ed_verify_rfc8032
|}.

(** The vector as a descriptor and as the signature part of a token. *)
Definition rfcKey : PublicKey :=
  mkPublicKey "did:example:rfc8032#key-1" "ED25519SignatureVerification"
    "did:example:rfc8032" None None
    (Some "11qYAYKxCrfVS/7TyWQHOg7hcvPapiMlrwIaaPcHURo=").

Definition rfc8032_jws_signature : string :=
  "5VZDAMNgrHKQhuLMgG6CioSHfx645dl02HPgZSJJAVVfuIIVkKM7rMYeOXAc-bRr0lv18FlbviRlUUFDjnoQCw".

(** A secp256k1 descriptor at reference 0, the vector's at reference 1 and
    another Ed25519 descriptor behind. *)
Definition heap_rfc (l : loc) : PublicKey :=
  match l with
  | O => ecKey1
  | S O => rfcKey
  | _ => edKey2
  end.

End Sample.

(** * Properties *)

Unset Implicit Arguments.

(** ** The error monad and the array methods *)

Section Arrays.

Variable A : Type.

Lemma find_first (p : A -> bool) (pre post : list A) (a : A) :
  (forall c, In c pre -> p c = false) ->
  p a = true ->
  find p (pre ++ a :: post)%list = Some a.
Proof.
  intros Hpre Ha.
  induction pre as [| c pre IH]; simpl.
  - now rewrite Ha.
  - rewrite (Hpre c) by now left.
    apply IH. intros c' Hc'. apply Hpre. now right.
Qed.


Lemma findM_In (p : A -> result bool) (l : list A) (a : A) :
  findM p l = Ok (Some a) -> In a l.
Proof.
  induction l as [| c l IH]; simpl; [discriminate |].
  destruct (p c) as [[|] | e]; simpl; intros H.
  - injection H as ->. now left.
  - right. now apply IH.
  - discriminate.
Qed.

(** An exception in the predicate leaves [find]: the candidates behind it
    are not looked at. *)
Lemma findM_throws (p : A -> result bool) (pre post : list A) (a : A) (e : string) :
  (forall c, In c pre -> p c = Ok false) ->
  p a = Throw e ->
  findM p (pre ++ a :: post)%list = Throw e.
Proof.
  intros Hpre Ha.
  induction pre as [| c pre IH]; simpl.
  - now rewrite Ha.
  - rewrite (Hpre c) by now left. simpl.
    apply IH. intros c' Hc'. apply Hpre. now right.
Qed.

Lemma non_null_In (l : list (option A)) (a : A) :
  In a (non_null l) <-> In (Some a) l.
Proof.
  induction l as [| [x |] l IH]; simpl.
  - tauto.
  - rewrite IH. split; intros [H | H]; auto.
    + left. now f_equal.
    + left. congruence.
  - rewrite IH. split; [auto | intros [H | H]; [discriminate | auto]].
Qed.

Lemma filter_app_cons (p : A -> bool) (pre post : list A) (a : A) :
  p a = true ->
  filter p (pre ++ a :: post)%list = (filter p pre ++ a :: filter p post)%list.
Proof.
  intros Ha. rewrite filter_app. simpl. now rewrite Ha.
Qed.

End Arrays.

Lemma mapM_In (A B : Type) (f : A -> result B) (l : list A) (found : list B) (y : B) :
  mapM f l = Ok found -> In y found -> exists x, In x l /\ f x = Ok y.
Proof.
  revert found.
  induction l as [| x l IH]; simpl; intros found H Hy.
  - injection H as <-. destruct Hy.
  - destruct (f x) as [y0 | e] eqn:Hx; simpl in H; [| discriminate].
    destruct (mapM f l) as [ys | e]; simpl in H; [| discriminate].
    injection H as <-.
    destruct Hy as [-> | Hy].
    + exists x. auto.
    + destruct (IH ys eq_refl Hy) as (x' & Hin & Hfx). exists x'. auto.
Qed.

(** ** The signature decoder *)

Lemma byte_at_range (raw : bytes) (i : nat) : 0 <= byte_at raw i <= 255.
Proof.
  unfold byte_at.
  pose proof (Byte.to_N_bounded (nth i raw "000"%byte)). lia.
Qed.

Lemma slice_length (raw : bytes) (from to : nat) :
  (to <= List.length raw)%nat ->
  List.length (slice raw from to) = (to - from)%nat.
Proof.
  intros H. unfold slice. rewrite length_firstn, length_skipn. lia.
Qed.

Lemma truthy_number_spec (chainId : option Z) :
  truthy_number chainId = true <-> exists c, chainId = Some c /\ c <> 0.
Proof.
  destruct chainId as [c |]; simpl.
  - destruct (Z.eqb_spec c 0) as [-> | Hc]; simpl; split.
    + discriminate.
    + intros (c & Hc & Hnz). congruence.
    + intros _. now exists c.
    + reflexivity.
  - split; [discriminate | intros (c & Hc & _); discriminate].
Qed.

Lemma calculateSigRecovery_parity (v : Z) (chainId : option Z) :
  0 <= v ->
  (calculateSigRecovery v chainId = 0 \/ calculateSigRecovery v chainId = 1)
  <-> conventional v chainId.
Proof.
  intros Hv. unfold calculateSigRecovery, conventional.
  destruct (Z.ltb_spec v 27) as [Hlt | Hge].
  - split; [intros [-> | ->]; auto |].
    intros [H | [H | [[_ H] | (c & _ & _ & H & _)]]]; lia.
  - destruct (truthy_number chainId) eqn:Ht.
    + apply truthy_number_spec in Ht. destruct Ht as (c & -> & Hc).
      split.
      * intros H. right; right; right. exists c. repeat split; auto; lia.
      * intros [H | [H | [[H _] | (c' & Hc' & _ & _ & H)]]]; try lia.
        assert (c' = c) by congruence. lia.
    + split; [intros H; right; right; left; split; [reflexivity | lia] |].
      intros [H | [H | [[_ H] | (c & Hc & Hnz & _)]]]; try lia.
      assert (truthy_number chainId = true)
        by (apply truthy_number_spec; now exists c).
      congruence.
Qed.

Section Decoder.

Context {C : Collaborators}.

Lemma toSignatureObject_decoded (signature : string) (recoverable : bool)
    (chainId : option Z) (rawsig : bytes) :
  base64urlToBytes signature = Ok rawsig ->
  toSignatureObject signature recoverable chainId =
    if (List.length rawsig =? (if recoverable then 65 else 64))%nat
    then Ok (mkSig (bytesToHex (slice rawsig 0 32)) (bytesToHex (slice rawsig 32 64))
               (if recoverable
                then Some (calculateSigRecovery (byte_at rawsig 64) chainId)
                else None))
    else Throw wrong_signature_length.
Proof.
  intros H. unfold toSignatureObject. rewrite H. simpl.
  destruct (List.length rawsig =? _)%nat; simpl; [| reflexivity].
  now destruct recoverable.
Qed.

Lemma toSignatureObject_inv (signature : string) (recoverable : bool)
    (chainId : option Z) (sigObj : EcdsaSignature) :
  toSignatureObject signature recoverable chainId = Ok sigObj ->
  exists rawsig,
    base64urlToBytes signature = Ok rawsig
    /\ List.length rawsig = (if recoverable then 65 else 64)%nat
    /\ sigObj = mkSig (bytesToHex (slice rawsig 0 32)) (bytesToHex (slice rawsig 32 64))
                  (if recoverable
                   then Some (calculateSigRecovery (byte_at rawsig 64) chainId)
                   else None).
Proof.
  intros H.
  destruct (base64urlToBytes signature) as [rawsig | e] eqn:Hraw.
  - rewrite (toSignatureObject_decoded _ recoverable chainId _ Hraw) in H.
    destruct (Nat.eqb_spec (List.length rawsig) (if recoverable then 65 else 64)%nat)
      as [Hlen | Hlen]; [| discriminate].
    injection H as <-. exists rawsig. auto.
  - unfold toSignatureObject in H. rewrite Hraw in H. discriminate.
Qed.

(** C6: once the signature string is decoded to raw bytes,
    [toSignatureObject] throws 'wrong signature length' exactly when their
    number differs from 64 (not recoverable) or 65 (recoverable); otherwise
    it returns, and [r] is made of the bytes [0, 32) and [s] of the bytes
    [32, 64). *)
Theorem toSignatureObject_length_error (signature : string) (recoverable : bool)
    (chainId : option Z) (rawsig : bytes) :
  base64urlToBytes signature = Ok rawsig ->
  let expected := (if recoverable then 65 else 64)%nat in
  (toSignatureObject signature recoverable chainId = Throw wrong_signature_length
   <-> List.length rawsig <> expected)
  /\ (List.length rawsig = expected ->
      exists sigObj,
        toSignatureObject signature recoverable chainId = Ok sigObj
        /\ r sigObj = bytesToHex (firstn 32 rawsig)
        /\ s sigObj = bytesToHex (firstn 32 (skipn 32 rawsig))).
Proof.
  intros Hraw expected.
  rewrite (toSignatureObject_decoded _ recoverable chainId _ Hraw). fold expected.
  destruct (Nat.eqb_spec (List.length rawsig) expected) as [Hlen | Hlen]; split.
  - split; [discriminate | intros H; now destruct H].
  - intros _. eexists. split; [reflexivity |]. split; reflexivity.
  - split; [now intros _ | reflexivity].
  - intros H. now destruct Hlen.
Qed.

(** C5, amended: a signature object that [toSignatureObject] returns has
    [r] and [s] made of exactly 32 bytes each; it has a [recoveryParam]
    exactly when decoded as recoverable, and that one is
    [calculateSigRecovery] of byte 64, which is 0 or 1 exactly for the raw
    values 0 and 1, 27 and 28 without a (non-zero) chain id, and
    [2 * chainId + 35] and [2 * chainId + 36] (at least 27) with a non-zero
    chain id. *)
Theorem toSignatureObject_components (signature : string) (recoverable : bool)
    (chainId : option Z) (sigObj : EcdsaSignature) :
  toSignatureObject signature recoverable chainId = Ok sigObj ->
  exists rawsig rbytes sbytes,
    base64urlToBytes signature = Ok rawsig
    /\ rbytes = firstn 32 rawsig /\ sbytes = firstn 32 (skipn 32 rawsig)
    /\ List.length rbytes = 32%nat /\ List.length sbytes = 32%nat
    /\ r sigObj = bytesToHex rbytes /\ s sigObj = bytesToHex sbytes
    /\ (recoveryParam sigObj <> None <-> recoverable = true)
    /\ (forall p, recoveryParam sigObj = Some p ->
          p = calculateSigRecovery (byte_at rawsig 64) chainId
          /\ ((p = 0 \/ p = 1) <-> conventional (byte_at rawsig 64) chainId)).
Proof.
  intros H.
  destruct (toSignatureObject_inv _ _ _ _ H) as (rawsig & Hraw & Hlen & ->).
  exists rawsig, (firstn 32 rawsig), (firstn 32 (skipn 32 rawsig)).
  assert (Hr : List.length (firstn 32 rawsig) = 32%nat)
    by (rewrite length_firstn; destruct recoverable; lia).
  assert (Hs : List.length (firstn 32 (skipn 32 rawsig)) = 32%nat)
    by (rewrite length_firstn, length_skipn; destruct recoverable; lia).
  split; [exact Hraw |].
  do 2 (split; [reflexivity |]).
  split; [exact Hr |]. split; [exact Hs |].
  do 2 (split; [reflexivity |]).
  simpl. split.
  - destruct recoverable; split; congruence.
  - intros p Hp. destruct recoverable; [| discriminate].
    injection Hp as <-. split; [reflexivity |].
    apply calculateSigRecovery_parity, byte_at_range.
Qed.

(** C3, amended: for every non-zero chain id whose raw value is a byte of
    at least 27 (chain ids 1 to 110 for [chainId * 2 + 35], 1 to 109 for
    [chainId * 2 + 36], and -4 to -1), the raw recovery values
    [chainId * 2 + 35] and [chainId * 2 + 36] decoded with that chain id
    give the [recoveryParam] 0 and 1, as 27 and 28 decoded without a chain
    id do; and so for the signature objects decoded from 65 bytes that end
    in these values. *)
Theorem chain_bound_recovery_byte (chainId : Z) :
  chainId <> 0 ->
  -4 <= chainId ->
  forall d, d = 0 \/ d = 1 ->
  chainId * 2 + 35 + d <= 255 ->
  (calculateSigRecovery (chainId * 2 + 35 + d) (Some chainId) = d
   /\ calculateSigRecovery (27 + d) None = d)
  /\ (forall bound legacy rawbound rawlegacy,
        base64urlToBytes bound = Ok rawbound ->
        base64urlToBytes legacy = Ok rawlegacy ->
        List.length rawbound = 65%nat ->
        List.length rawlegacy = 65%nat ->
        byte_at rawbound 64 = chainId * 2 + 35 + d ->
        byte_at rawlegacy 64 = 27 + d ->
        exists so so',
          toSignatureObject bound true (Some chainId) = Ok so
          /\ toSignatureObject legacy true None = Ok so'
          /\ recoveryParam so = Some d
          /\ recoveryParam so' = Some d).
Proof.
  intros Hnz Hge d Hd Hbyte.
  assert (Hcalc : calculateSigRecovery (chainId * 2 + 35 + d) (Some chainId) = d
                  /\ calculateSigRecovery (27 + d) None = d).
  { unfold calculateSigRecovery.
    assert (Ht : truthy_number (Some chainId) = true)
      by (apply truthy_number_spec; now exists chainId).
    rewrite Ht. change (truthy_number None) with false.
    destruct (Z.ltb_spec (chainId * 2 + 35 + d) 27); [lia |].
    destruct (Z.ltb_spec (27 + d) 27); lia. }
  split; [exact Hcalc |].
  intros bound legacy rawbound rawlegacy Hb Hl Hlb Hll Hvb Hvl.
  do 2 eexists.
  rewrite (toSignatureObject_decoded _ true (Some chainId) _ Hb),
    (toSignatureObject_decoded _ true None _ Hl).
  rewrite Hlb, Hll. simpl.
  destruct Hcalc as [Hbound Hlegacy].
  split; [reflexivity |]. split; [reflexivity |].
  simpl. rewrite Hvb, Hvl, Hbound, Hlegacy. split; reflexivity.
Qed.

End Decoder.

(** ** The recoverer *)

Section Recoverer.

Context {C : Collaborators}.
Variable heap : loc -> PublicKey.

Lemma checkSignatureAgainstSigner_In (data : string) (authenticators : list loc)
    (ethPersonal : bool) (sigObj : EcdsaSignature) (k : loc) :
  checkSignatureAgainstSigner heap data authenticators ethPersonal sigObj = Ok (Some k) ->
  In k authenticators.
Proof.
  unfold checkSignatureAgainstSigner.
  destruct (recoverPubKey _ _ _) as [P | e]; simpl; [| discriminate].
  intros H. injection H as H. now apply find_some in H.
Qed.

(** With a key recovered, matching is string comparison and returns. *)
Lemma checkSignatureAgainstSigner_recovered (data : string) (authenticators : list loc)
    (ethPersonal : bool) (sigObj : EcdsaSignature) (P : Point) :
  recoverPubKey (sha256OrPersonal data ethPersonal) sigObj (recoveryParam sigObj) = Ok P ->
  checkSignatureAgainstSigner heap data authenticators ethPersonal sigObj =
    Ok (find (matches_recovered heap (encodePoint P false) (encodePoint P true)
                (toEthereumAddress (encodePoint P false))) authenticators).
Proof.
  intros H. unfold checkSignatureAgainstSigner. now rewrite H.
Qed.

(** Nothing around [recoverPubKey] catches. *)
Lemma checkSignatureAgainstSigner_throws (data : string) (authenticators : list loc)
    (ethPersonal : bool) (sigObj : EcdsaSignature) (e : string) :
  recoverPubKey (sha256OrPersonal data ethPersonal) sigObj (recoveryParam sigObj) = Throw e ->
  checkSignatureAgainstSigner heap data authenticators ethPersonal sigObj = Throw e.
Proof.
  intros H. unfold checkSignatureAgainstSigner. now rewrite H.
Qed.

Lemma mapM_check_returns (data : string) (authenticators : list loc)
    (ethPersonal : bool) (sigs : list EcdsaSignature) :
  (forall so, In so sigs ->
     exists P, recoverPubKey (sha256OrPersonal data ethPersonal) so (recoveryParam so) = Ok P) ->
  exists found,
    mapM (checkSignatureAgainstSigner heap data authenticators ethPersonal) sigs = Ok found.
Proof.
  induction sigs as [| so sigs IH]; intros H; simpl.
  - now exists [].
  - destruct (H so (or_introl eq_refl)) as [P HP].
    rewrite (checkSignatureAgainstSigner_recovered _ _ _ _ _ HP). simpl.
    destruct IH as [found ->]; [intros so' Hso'; apply H; now right |].
    simpl. eauto.
Qed.

Lemma recoverer_single (data signature : string) (authenticators : list loc)
    (ethPersonal : bool) (chainId : option Z) :
  (86 < String.length signature)%nat ->
  verifyRecoverableES256K heap data signature authenticators ethPersonal chainId =
    (so <- toSignatureObject signature true chainId ;;
     found <- checkSignatureAgainstSigner heap data authenticators ethPersonal so ;;
     match found with
     | Some k => Ok k
     | None => Throw signature_invalid
     end).
Proof.
  intros Hlen. unfold verifyRecoverableES256K, signatures_of.
  apply Nat.ltb_lt in Hlen. rewrite Hlen.
  destruct (toSignatureObject signature true chainId) as [so | e]; simpl; [| reflexivity].
  destruct (checkSignatureAgainstSigner _ _ _ _ so) as [[k |] | e]; reflexivity.
Qed.

Lemma recoverer_pair (data signature : string) (authenticators : list loc)
    (ethPersonal : bool) (chainId : option Z) :
  (String.length signature <= 86)%nat ->
  verifyRecoverableES256K heap data signature authenticators ethPersonal chainId =
    (so <- toSignatureObject signature false chainId ;;
     found0 <- checkSignatureAgainstSigner heap data authenticators ethPersonal
                 (mkSig (r so) (s so) (Some 0)) ;;
     found1 <- checkSignatureAgainstSigner heap data authenticators ethPersonal
                 (mkSig (r so) (s so) (Some 1)) ;;
     match found0, found1 with
     | Some k, _ => Ok k
     | None, Some k => Ok k
     | None, None => Throw signature_invalid
     end).
Proof.
  intros Hlen. unfold verifyRecoverableES256K, signatures_of.
  apply Nat.ltb_ge in Hlen. rewrite Hlen.
  destruct (toSignatureObject signature false chainId) as [so | e]; simpl; [| reflexivity].
  unfold with_recoveryParam.
  destruct (checkSignatureAgainstSigner _ _ _ _ (mkSig (r so) (s so) (Some 0)))
    as [[k0 |] | e0]; simpl; [| | reflexivity];
  destruct (checkSignatureAgainstSigner _ _ _ _ (mkSig (r so) (s so) (Some 1)))
    as [[k1 |] | e1]; reflexivity.
Qed.

Lemma verifyRecoverableES256K_In (data signature : string) (authenticators : list loc)
    (ethPersonal : bool) (chainId : option Z) (k : loc) :
  verifyRecoverableES256K heap data signature authenticators ethPersonal chainId = Ok k ->
  In k authenticators.
Proof.
  unfold verifyRecoverableES256K.
  destruct (signatures_of signature chainId) as [sigs | e]; simpl; [| discriminate].
  destruct (mapM _ sigs) as [found | e] eqn:Hmap; simpl; [| discriminate].
  destruct (non_null found) as [| first rest] eqn:Hnn; [discriminate |].
  intros H. injection H as ->.
  assert (Hin : In (Some k) found)
    by (apply non_null_In; rewrite Hnn; now left).
  destruct (mapM_In _ _ _ _ _ _ Hmap Hin) as (so & _ & Hso).
  exact (checkSignatureAgainstSigner_In _ _ _ _ _ Hso).
Qed.

(** An exception of [recoverPubKey] on the first attempt is the outcome of
    the call: the second attempt is not made. *)
Lemma verifyRecoverableES256K_throws (data signature : string)
    (authenticators : list loc) (ethPersonal : bool) (chainId : option Z)
    (so : EcdsaSignature) (sigs : list EcdsaSignature) (e : string) :
  signatures_of signature chainId = Ok (so :: sigs) ->
  recoverPubKey (sha256OrPersonal data ethPersonal) so (recoveryParam so) = Throw e ->
  verifyRecoverableES256K heap data signature authenticators ethPersonal chainId = Throw e.
Proof.
  intros Hsigs Hrec. unfold verifyRecoverableES256K. rewrite Hsigs. simpl.
  now rewrite (checkSignatureAgainstSigner_throws _ _ _ _ _ Hrec).
Qed.

(** C2: a signature string of more than 86 characters is decoded once, as a
    recoverable signature and with the chain id given, and that one
    signature object is tried; a shorter one is decoded without recovery
    byte and tried with [recoveryParam] 0 and then 1; what is returned is
    the first match in that order. *)
Theorem verifyRecoverableES256K_attempts (data signature : string)
    (authenticators : list loc) (ethPersonal : bool) (chainId : option Z) :
  let check := checkSignatureAgainstSigner heap data authenticators ethPersonal in
  ((86 < String.length signature)%nat ->
   signatures_of signature chainId =
     (so <- toSignatureObject signature true chainId ;; Ok [so])
   /\ verifyRecoverableES256K heap data signature authenticators ethPersonal chainId =
        (so <- toSignatureObject signature true chainId ;;
         found <- check so ;;
         match found with
         | Some k => Ok k
         | None => Throw signature_invalid
         end))
  /\ ((String.length signature <= 86)%nat ->
      signatures_of signature chainId =
        (so <- toSignatureObject signature false chainId ;;
         Ok [mkSig (r so) (s so) (Some 0); mkSig (r so) (s so) (Some 1)])
      /\ verifyRecoverableES256K heap data signature authenticators ethPersonal chainId =
           (so <- toSignatureObject signature false chainId ;;
            found0 <- check (mkSig (r so) (s so) (Some 0)) ;;
            found1 <- check (mkSig (r so) (s so) (Some 1)) ;;
            match found0, found1 with
            | Some k, _ => Ok k
            | None, Some k => Ok k
            | None, None => Throw signature_invalid
            end)).
Proof.
  intros check. split; intros Hlen; split.
  - unfold signatures_of. apply Nat.ltb_lt in Hlen. now rewrite Hlen.
  - now apply recoverer_single.
  - unfold signatures_of. apply Nat.ltb_ge in Hlen. now rewrite Hlen.
  - now apply recoverer_pair.
Qed.

End Recoverer.

(** ** The three verifiers *)

Section Verifiers.

Context {C : Collaborators}.
Variable heap : loc -> PublicKey.

(** [verifyES256K] once its signature is decoded. *)
Lemma verifyES256K_decoded (data signature : string) (authenticators : list loc)
    (ethPersonal : bool) (sigObj : EcdsaSignature) :
  toSignatureObject signature false None = Ok sigObj ->
  let fullPublicKeys := filter (fun a => defined (publicKeyHex (heap a))) authenticators in
  let ethAddressKeys := filter (fun a => defined (ethereumAddress (heap a))) authenticators in
  verifyES256K heap data signature authenticators ethPersonal =
    match find (verifies heap (sha256OrPersonal data ethPersonal) sigObj) fullPublicKeys with
    | Some k => Ok k
    | None =>
        match ethAddressKeys with
        | [] => Throw signature_invalid
        | _ :: _ => verifyRecoverableES256K heap data signature ethAddressKeys ethPersonal None
        end
    end.
Proof.
  intros Hsig fullPublicKeys ethAddressKeys.
  unfold verifyES256K. rewrite Hsig. simpl.
  fold fullPublicKeys. fold ethAddressKeys.
  destruct (find _ fullPublicKeys) as [k |]; simpl; [reflexivity |].
  destruct ethAddressKeys as [| a l]; simpl; [reflexivity |].
  destruct (verifyRecoverableES256K heap data signature (a :: l) ethPersonal None);
    reflexivity.
Qed.

Lemma verifies_caught (hash : bytes) (sigObj : EcdsaSignature) (a : loc) :
  verifies heap hash sigObj a = true
  <-> (key <- keyFromPublic (publicKeyHex (heap a)) ;; ecVerify key hash sigObj) = Ok true.
Proof.
  unfold verifies, try_catch.
  destruct (key <- keyFromPublic (publicKeyHex (heap a)) ;; ecVerify key hash sigObj)
    as [[|] | e]; split; congruence.
Qed.

(** What the scans do pass over: in the key scan of [verifyES256K] a
    candidate on which key decoding or verification throws counts as no
    match and the scan goes on, so that the first key-bearing candidate that verifies is returned
    whatever the key material before it; in [verifyRecoverableES256K] the
    candidates are only compared as strings, so that once the keys are
    recovered the first candidate that equals the first recovered key is
    returned whatever the descriptors before it. *)
Theorem scans_pass_over_malformed_candidates (data signature : string)
    (ethPersonal : bool) (pre post : list loc) (a : loc) :
  let hash := sha256OrPersonal data ethPersonal in
  (forall sigObj,
     toSignatureObject signature false None = Ok sigObj ->
     let attempt c :=
       (key <- keyFromPublic (publicKeyHex (heap c)) ;; ecVerify key hash sigObj) in
     (forall c, In c pre -> defined (publicKeyHex (heap c)) = true ->
        attempt c <> Ok true) ->
     defined (publicKeyHex (heap a)) = true ->
     attempt a = Ok true ->
     verifyES256K heap data signature (pre ++ a :: post)%list ethPersonal = Ok a)
  /\ (forall chainId so sigs P,
        signatures_of signature chainId = Ok (so :: sigs) ->
        (forall so', In so' (so :: sigs) ->
           exists P', recoverPubKey hash so' (recoveryParam so') = Ok P') ->
        recoverPubKey hash so (recoveryParam so) = Ok P ->
        let matches :=
          matches_recovered heap (encodePoint P false) (encodePoint P true)
            (toEthereumAddress (encodePoint P false)) in
        (forall c, In c pre -> matches c = false) ->
        matches a = true ->
        verifyRecoverableES256K heap data signature (pre ++ a :: post)%list
          ethPersonal chainId = Ok a).
Proof.
  intros hash. split.
  - intros sigObj Hsig attempt Hpre Hdef Ha.
    rewrite (verifyES256K_decoded _ _ _ _ _ Hsig).
    rewrite filter_app_cons by exact Hdef.
    rewrite find_first; [reflexivity | | now apply verifies_caught].
    intros c Hc. apply filter_In in Hc. destruct Hc as [Hc Hdefc].
    destruct (verifies heap hash sigObj c) eqn:Hv; [| exact Hv].
    apply verifies_caught in Hv. now destruct (Hpre c Hc Hdefc).
  - intros chainId so sigs P Hsigs Hrec HP matches Hpre Ha.
    unfold verifyRecoverableES256K. rewrite Hsigs. simpl.
    rewrite (checkSignatureAgainstSigner_recovered _ _ _ _ _ _ HP). simpl.
    fold matches. rewrite find_first by assumption.
    destruct (mapM_check_returns heap data (pre ++ a :: post)%list ethPersonal sigs)
      as [found ->]; [intros so' Hso'; apply Hrec; now right |].
    reflexivity.
Qed.

(** C7: with the signature decoded as 64 bytes (and written in no more than
    86 characters), the first key-bearing candidate that verifies is
    returned; when none does and there are address candidates, the result
    is that of the recoverer over the address candidates, which tries
    [recoveryParam] 0 and then 1; 'Signature invalid for JWT' is thrown when
    no key verifies and there is no address candidate, and only if no key
    verifies and the recoverer, if it ran, threw it. *)
Theorem verifyES256K_fallback (data signature : string) (authenticators : list loc)
    (ethPersonal : bool) (sigObj : EcdsaSignature) :
  toSignatureObject signature false None = Ok sigObj ->
  (String.length signature <= 86)%nat ->
  let hash := sha256OrPersonal data ethPersonal in
  let fullPublicKeys := filter (fun a => defined (publicKeyHex (heap a))) authenticators in
  let ethAddressKeys := filter (fun a => defined (ethereumAddress (heap a))) authenticators in
  let check := checkSignatureAgainstSigner heap data ethAddressKeys ethPersonal in
  let result := verifyES256K heap data signature authenticators ethPersonal in
  (forall k, find (verifies heap hash sigObj) fullPublicKeys = Some k -> result = Ok k)
  /\ (find (verifies heap hash sigObj) fullPublicKeys = None ->
      ethAddressKeys <> [] ->
      result = verifyRecoverableES256K heap data signature ethAddressKeys ethPersonal None
      /\ result =
           (found0 <- check (mkSig (r sigObj) (s sigObj) (Some 0)) ;;
            found1 <- check (mkSig (r sigObj) (s sigObj) (Some 1)) ;;
            match found0, found1 with
            | Some k, _ => Ok k
            | None, Some k => Ok k
            | None, None => Throw signature_invalid
            end))
  /\ (find (verifies heap hash sigObj) fullPublicKeys = None ->
      ethAddressKeys = [] ->
      result = Throw signature_invalid)
  /\ (result = Throw signature_invalid ->
      find (verifies heap hash sigObj) fullPublicKeys = None
      /\ (ethAddressKeys = []
          \/ verifyRecoverableES256K heap data signature ethAddressKeys ethPersonal None
             = Throw signature_invalid)).
Proof.
  intros Hsig Hlen hash fullPublicKeys ethAddressKeys check result.
  assert (Hres := verifyES256K_decoded data signature authenticators ethPersonal sigObj Hsig).
  simpl in Hres. fold hash fullPublicKeys ethAddressKeys result in Hres.
  split; [| split; [| split]].
  - intros k Hk. now rewrite Hres, Hk.
  - intros Hnone Hne. rewrite Hres, Hnone.
    destruct ethAddressKeys as [| a l] eqn:He; [now destruct Hne |].
    split; [reflexivity |].
    rewrite (recoverer_pair heap _ _ _ _ _ Hlen), Hsig. reflexivity.
  - intros Hnone He. rewrite Hres, Hnone, He. reflexivity.
  - intros Hinv. rewrite Hres in Hinv.
    destruct (find _ fullPublicKeys); [discriminate |].
    split; [reflexivity |].
    destruct ethAddressKeys; [now left | now right].
Qed.


(** Nothing in [verifyEd25519] catches: an exception of the codec or of the
    primitive on a candidate is the outcome of the call. *)
Lemma verifyEd25519_throws (data signature : string) (sig : bytes)
    (pre post : list loc) (a : loc) (e : string) :
  base64urlToBytes signature = Ok sig ->
  (forall c, In c pre -> ed_accepts heap (encode data) sig c = Ok false) ->
  ed_accepts heap (encode data) sig a = Throw e ->
  verifyEd25519 heap data signature (pre ++ a :: post)%list = Throw e.
Proof.
  intros Hsig Hpre Ha. unfold verifyEd25519. rewrite Hsig. simpl.
  now rewrite (findM_throws _ _ _ _ _ _ Hpre Ha).
Qed.

(** C1, where the code departs from it: outside the key scan of
    [verifyES256K] a failure of a primitive is not caught. In
    [verifyEd25519] an exception of [base64ToBytes] or of the Ed25519
    primitive on a candidate is the outcome of the call whatever comes
    behind it in the list, a candidate that would be accepted included; in
    [verifyRecoverableES256K] an exception of [recoverPubKey] on the first
    attempt is the outcome of the call, not 'Signature invalid for JWT' and
    not the match of a later attempt. *)
Theorem primitive_failure_leaves_the_scan (data signature : string)
    (ethPersonal : bool) (chainId : option Z) (e : string) :
  (forall sig pre a post,
     base64urlToBytes signature = Ok sig ->
     (forall c, In c pre ->
        exists key, base64ToBytes (publicKeyBase64 (heap c)) = Ok key
                    /\ edVerify key (encode data) sig = Ok false) ->
     (base64ToBytes (publicKeyBase64 (heap a)) = Throw e
      \/ exists key, base64ToBytes (publicKeyBase64 (heap a)) = Ok key
                     /\ edVerify key (encode data) sig = Throw e) ->
     verifyEd25519 heap data signature (pre ++ a :: post)%list = Throw e)
  /\ (forall so sigs authenticators,
        signatures_of signature chainId = Ok (so :: sigs) ->
        recoverPubKey (sha256OrPersonal data ethPersonal) so (recoveryParam so) = Throw e ->
        verifyRecoverableES256K heap data signature authenticators ethPersonal chainId
        = Throw e).
Proof.
  split.
  - intros sig pre a post Hsig Hpre Ha.
    apply (verifyEd25519_throws data signature sig pre post a e Hsig).
    + intros c Hc. destruct (Hpre c Hc) as (key & Hkey & Hno).
      unfold ed_accepts. now rewrite Hkey.
    + unfold ed_accepts. destruct Ha as [Ha | (key & Hkey & Ha)].
      * now rewrite Ha.
      * now rewrite Hkey.
  - intros so sigs authenticators Hsigs Hrec.
    exact (verifyRecoverableES256K_throws heap _ _ _ _ _ _ _ _ Hsigs Hrec).
Qed.

Lemma verifyES256K_In (data signature : string) (authenticators : list loc)
    (ethPersonal : bool) (k : loc) :
  verifyES256K heap data signature authenticators ethPersonal = Ok k ->
  In k authenticators.
Proof.
  intros H.
  destruct (toSignatureObject signature false None) as [sigObj | e] eqn:Hsig.
  - rewrite (verifyES256K_decoded _ _ _ _ _ Hsig) in H.
    destruct (find _ _) as [k' |] eqn:Hfind.
    + injection H as ->. apply find_some in Hfind.
      destruct Hfind as [Hin _]. now apply filter_In in Hin.
    + destruct (filter _ authenticators) as [| a l] eqn:He in H; [discriminate |].
      apply verifyRecoverableES256K_In in H. rewrite <- He in H.
      now apply filter_In in H.
  - unfold verifyES256K in H. rewrite Hsig in H. discriminate.
Qed.

Lemma verifyEd25519_In (data signature : string) (authenticators : list loc) (k : loc) :
  verifyEd25519 heap data signature authenticators = Ok k ->
  In k authenticators.
Proof.
  unfold verifyEd25519.
  destruct (base64urlToBytes signature) as [sig | e]; simpl; [| discriminate].
  destruct (findM _ authenticators) as [[k' |] | e] eqn:Hfind; simpl; try discriminate.
  intros H. injection H as ->. exact (findM_In _ _ _ _ Hfind).
Qed.

(** C8: whichever of the three functions is called, a descriptor it returns
    is one of the references of the candidate array it was given. *)
Theorem signer_is_a_candidate (impl : Verifier) (data signature : string)
    (authenticators : list loc) (eip155 : option bool) (chainId : option Z) (k : loc) :
  call heap impl data signature authenticators eip155 chainId = Ok k ->
  In k authenticators.
Proof.
  destruct impl; simpl; intros H.
  - exact (verifyES256K_In _ _ _ _ _ H).
  - exact (verifyRecoverableES256K_In heap _ _ _ _ _ _ H).
  - exact (verifyEd25519_In _ _ _ _ H).
Qed.

(** C9: "ES256K" dispatches to [verifyES256K], whose call through the
    [Verifier] type gives the same outcome for any two chain ids; when it
    falls back into the recoverer, it calls it without a chain id. *)
Theorem ES256K_ignores_chainId (data signature : string) (authenticators : list loc)
    (eip155 : option bool) (chainId chainId' : option Z) :
  VerifierAlgorithm "ES256K" = Ok (Own VerifyES256K)
  /\ call heap VerifyES256K data signature authenticators eip155 chainId
     = call heap VerifyES256K data signature authenticators eip155 chainId'
  /\ (forall sigObj,
        let ethPersonal := match eip155 with Some b => b | None => false end in
        let fullPublicKeys :=
          filter (fun a => defined (publicKeyHex (heap a))) authenticators in
        let ethAddressKeys :=
          filter (fun a => defined (ethereumAddress (heap a))) authenticators in
        toSignatureObject signature false None = Ok sigObj ->
        find (verifies heap (sha256OrPersonal data ethPersonal) sigObj) fullPublicKeys = None ->
        ethAddressKeys <> [] ->
        call heap VerifyES256K data signature authenticators eip155 chainId
        = verifyRecoverableES256K heap data signature ethAddressKeys ethPersonal None).
Proof.
  split; [reflexivity |]. split; [reflexivity |].
  intros sigObj ethPersonal fullPublicKeys ethAddressKeys Hsig Hfind Hne.
  simpl. fold ethPersonal.
  rewrite (verifyES256K_decoded _ _ _ _ _ Hsig).
  fold fullPublicKeys ethAddressKeys. rewrite Hfind.
  destruct ethAddressKeys; [now destruct Hne | reflexivity].
Qed.

End Verifiers.

(** ** The dispatcher *)

Lemma VerifierAlgorithm_registered :
  VerifierAlgorithm "ES256K" = Ok (Own VerifyES256K)
  /\ VerifierAlgorithm "ES256K-R" = Ok (Own VerifyRecoverableES256K)
  /\ VerifierAlgorithm "Ed25519" = Ok (Own VerifyEd25519)
  /\ VerifierAlgorithm "EdDSA" = Ok (Own VerifyEd25519).
Proof. repeat split. Qed.

Lemma existsb_eqb_false (alg : string) (names : list string) :
  ~ In alg names -> existsb (String.eqb alg) names = false.
Proof.
  intros Hnot. destruct (existsb _ names) eqn:He; [| reflexivity].
  apply existsb_exists in He. destruct He as (x & Hin & Heq).
  apply String.eqb_eq in Heq. subst x. contradiction.
Qed.

(** A name that is neither in the table nor a member of [Object.prototype]
    is refused, with the name in the message. *)
Lemma VerifierAlgorithm_unregistered (alg : string) :
  ~ In alg ["ES256K"; "ES256K-R"; "Ed25519"; "EdDSA"] ->
  ~ In alg Object_prototype ->
  VerifierAlgorithm alg = Throw ("Unsupported algorithm " ++ alg).
Proof.
  intros Hown Hproto. unfold VerifierAlgorithm, get, algorithms, assoc.
  repeat match goal with
         | |- context [String.eqb alg ?k] =>
             destruct (String.eqb_spec alg k) as [-> | _];
             [exfalso; apply Hown; simpl; tauto |]
         end.
  now rewrite (existsb_eqb_false _ _ Hproto).
Qed.

(** Every member of [Object.prototype] is found by the lookup. *)
Lemma VerifierAlgorithm_inherited (name : string) :
  In name Object_prototype ->
  VerifierAlgorithm name = Ok (Inherited name).
Proof.
  unfold Object_prototype. simpl.
  intros H.
  repeat (destruct H as [<- | H]; [reflexivity |]).
  destruct H.
Qed.

(** C4, at the name "constructor": it is none of the four identifiers, and
    the dispatcher does not throw but returns the member that the table
    inherits from [Object.prototype]. *)
Theorem VerifierAlgorithm_constructor :
  ~ In "constructor" ["ES256K"; "ES256K-R"; "Ed25519"; "EdDSA"]
  /\ VerifierAlgorithm "constructor" = Ok (Inherited "constructor")
  /\ VerifierAlgorithm "constructor" <> Throw (unsupported_algorithm "constructor").
Proof.
  split; [| split].
  - simpl. intros [H | [H | [H | [H | []]]]]; discriminate.
  - reflexivity.
  - discriminate.
Qed.

(** ** The properties on the sample instance *)

Import Sample.

(** The cases of the test suite that do not depend on real signatures. *)
Example fails_on_unsupported_algorithm :
  VerifierAlgorithm "BADALGO" = Throw "Unsupported algorithm BADALGO".
Proof. reflexivity. Qed.

Example throws_error_if_invalid_signature_length :
  verifyES256K heap "data" (compact_signature ++ "aa") [0%nat] false
  = Throw "wrong signature length".
Proof. vm_compute. reflexivity. Qed.

Example picks_correct_public_key :
  verifyES256K heap "data" compact_signature [0%nat; 1%nat] false = Ok 1%nat
  /\ verifyRecoverableES256K heap "data" compact_signature [0%nat; 2%nat] false None
     = Ok 2%nat
  /\ verifyEd25519 heap "data" compact_signature [4%nat; 5%nat] = Ok 4%nat
  /\ verifyEd25519 heap "data" compact_signature [5%nat] = Throw "Signature invalid for JWT".
Proof. vm_compute. repeat split. Qed.

(** "ES256K-R", unlike "ES256K", reads the chain id. *)
Example ES256K_R_reads_chainId :
  call heap VerifyRecoverableES256K "data" signature_v97 [2%nat] None (Some 31)
  = Ok 2%nat
  /\ call heap VerifyRecoverableES256K "data" signature_v97 [2%nat] None None
     = Throw "The recovery param is more than two bits".
Proof. vm_compute. split; reflexivity. Qed.


(** C3 does not hold for the chain id 0: the raw value [0 * 2 + 35] decoded
    with chain id 0 gives 8, where 27 without a chain id gives 0. *)
Lemma chain_id_zero_counterexample :
  calculateSigRecovery (0 * 2 + 35) (Some 0) = 8
  /\ calculateSigRecovery 27 None = 0
  /\ option_map recoveryParam
       (try_catch (so <- toSignatureObject signature_v35 true (Some 0) ;; Ok (Some so)) None)
     = Some (Some 8)
  /\ option_map recoveryParam
       (try_catch (so <- toSignatureObject signature_v27 true None ;; Ok (Some so)) None)
     = Some (Some 0).
Proof. vm_compute. repeat split. Qed.

(** C5 does not hold for a recovery byte outside the conventions: the 65
    bytes that end in 2 decode to a signature object with [recoveryParam] 2. *)
Lemma recovery_byte_2_counterexample :
  exists sigObj,
    toSignatureObject signature_v2 true None = Ok sigObj
    /\ recoveryParam sigObj = Some 2
    /\ ~ (recoveryParam sigObj = Some 0 \/ recoveryParam sigObj = Some 1).
Proof.
  eexists. split; [vm_compute; reflexivity |]. simpl.
  split; [reflexivity |]. intros [H | H]; discriminate.
Qed.

(** *** The theorems at sample inputs *)

Lemma primitive_failure_leaves_the_scan_witness :
  publicKeyBase64 (heap_rfc 0%nat) = None
  /\ verifyEd25519 (C := vector_collaborators) heap_rfc "" rfc8032_jws_signature [1%nat]
     = Ok 1%nat
  /\ verifyEd25519 (C := vector_collaborators) heap_rfc "" rfc8032_jws_signature
       [0%nat; 1%nat]
     = Throw "TypeError: Cannot read property 'length' of undefined"
  /\ verifyRecoverableES256K heap "data" signature_v5 [1%nat] false None
     = Throw "The recovery param is more than two bits".
Proof.
  split; [reflexivity |]. split; [vm_compute; reflexivity |]. split.
  - destruct (primitive_failure_leaves_the_scan (C := vector_collaborators) heap_rfc ""
                rfc8032_jws_signature false None
                "TypeError: Cannot read property 'length' of undefined") as [Hed _].
    eapply (Hed _ [] 0%nat [1%nat]).
    + vm_compute. reflexivity.
    + intros c [].
    + left. reflexivity.
  - destruct (primitive_failure_leaves_the_scan heap "data" signature_v5 false None
                "The recovery param is more than two bits") as [_ Hrec].
    apply (Hrec (mkSig zeros zeros (Some 5)) [] [1%nat]).
    + vm_compute. reflexivity.
    + vm_compute. reflexivity.
Defined.

Lemma scans_pass_over_malformed_candidates_witness :
  keyFromPublic (publicKeyHex (heap 6%nat)) = Throw "Unknown point format"
  /\ verifyES256K heap "data" compact_signature [6; 7; 8; 3]%nat false = Ok 3%nat
  /\ verifyRecoverableES256K heap "data" compact_signature [6; 7; 8; 3]%nat false None
     = Ok 3%nat.
Proof.
  split; [reflexivity |].
  destruct (scans_pass_over_malformed_candidates heap "data" compact_signature false
              [6; 7; 8]%nat [] 3%nat) as [Hscan Hrec].
  split.
  - apply (Hscan (mkSig zeros zeros None)).
    + vm_compute. reflexivity.
    + intros c [<- | [<- | [<- | []]]] _; vm_compute; discriminate.
    + reflexivity.
    + vm_compute. reflexivity.
  - apply (Hrec None (mkSig zeros zeros (Some 0)) [mkSig zeros zeros (Some 1)]
             (zeros, false)).
    + vm_compute. reflexivity.
    + intros so' [<- | [<- | []]]; eexists; vm_compute; reflexivity.
    + vm_compute. reflexivity.
    + intros c [<- | [<- | [<- | []]]]; vm_compute; reflexivity.
    + vm_compute. reflexivity.
Defined.

Lemma verifyRecoverableES256K_attempts_witness :
  (86 < String.length signature_v97)%nat
  /\ verifyRecoverableES256K heap "data" signature_v97 [0; 2]%nat false (Some 31)
     = Ok 2%nat
  /\ (String.length compact_signature <= 86)%nat
  /\ verifyRecoverableES256K heap "data" compact_signature [0; 4; 3; 1]%nat false None
     = Ok 3%nat.
Proof.
  assert (Hlong : (86 < String.length signature_v97)%nat) by (vm_compute; lia).
  assert (Hshort : (String.length compact_signature <= 86)%nat) by (vm_compute; lia).
  split; [exact Hlong |]. split; [| split; [exact Hshort |]].
  - destruct (verifyRecoverableES256K_attempts heap "data" signature_v97 [0; 2]%nat
                false (Some 31)) as [Hsingle _].
    destruct (Hsingle Hlong) as [_ ->]. vm_compute. reflexivity.
  - destruct (verifyRecoverableES256K_attempts heap "data" compact_signature
                [0; 4; 3; 1]%nat false None) as [_ Hpair].
    destruct (Hpair Hshort) as [_ ->]. vm_compute. reflexivity.
Defined.

Lemma chain_bound_recovery_byte_witness :
  31 <> 0 /\ -4 <= 31 /\ 31 * 2 + 35 + 0 <= 255
  /\ calculateSigRecovery (31 * 2 + 35 + 0) (Some 31) = calculateSigRecovery (27 + 0) None
  /\ exists so so',
       toSignatureObject signature_v97 true (Some 31) = Ok so
       /\ toSignatureObject signature_v27 true None = Ok so'
       /\ recoveryParam so = Some 0
       /\ recoveryParam so' = Some 0.
Proof.
  assert (Hnz : 31 <> 0) by lia.
  assert (Hge : -4 <= 31) by lia.
  assert (Hbyte : 31 * 2 + 35 + 0 <= 255) by lia.
  destruct (chain_bound_recovery_byte 31 Hnz Hge 0 (or_introl eq_refl) Hbyte)
    as [[Hbound Hlegacy] Hobj].
  split; [exact Hnz |]. split; [exact Hge |]. split; [exact Hbyte |].
  split; [now rewrite Hbound, Hlegacy |].
  apply (Hobj signature_v97 signature_v27
           (repeat "000"%byte 64 ++ ["a"%byte])%list
           (repeat "000"%byte 64 ++ ["027"%byte])%list);
    vm_compute; reflexivity.
Defined.

Lemma toSignatureObject_components_witness :
  toSignatureObject signature_v97 true (Some 31) = Ok (mkSig zeros zeros (Some 0))
  /\ exists rawsig,
       base64urlToBytes signature_v97 = Ok rawsig
       /\ List.length (firstn 32 rawsig) = 32%nat
       /\ List.length (firstn 32 (skipn 32 rawsig)) = 32%nat
       /\ conventional (byte_at rawsig 64) (Some 31).
Proof.
  assert (H : toSignatureObject signature_v97 true (Some 31)
              = Ok (mkSig zeros zeros (Some 0))) by (vm_compute; reflexivity).
  split; [exact H |].
  destruct (toSignatureObject_components signature_v97 true (Some 31) _ H)
    as (rawsig & rbytes & sbytes & Hraw & -> & -> & Hr & Hs & _ & _ & _ & Hp).
  destruct (Hp 0 eq_refl) as [_ Hconv].
  exists rawsig. repeat split; auto. apply Hconv. now left.
Defined.

Lemma toSignatureObject_length_error_witness :
  exists rawsig,
    base64urlToBytes (compact_signature ++ "aa") = Ok rawsig
    /\ List.length rawsig = 66%nat
    /\ toSignatureObject (compact_signature ++ "aa") false None
       = Throw wrong_signature_length.
Proof.
  eexists.
  assert (H : base64urlToBytes (compact_signature ++ "aa") = Ok _)
    by (vm_compute; reflexivity).
  split; [exact H |]. split; [reflexivity |].
  apply (toSignatureObject_length_error (compact_signature ++ "aa") false None _ H).
  vm_compute. lia.
Defined.

Lemma verifyES256K_fallback_witness :
  toSignatureObject compact_signature false None = Ok (mkSig zeros zeros None)
  /\ (String.length compact_signature <= 86)%nat
  /\ verifyES256K heap "data" compact_signature [0; 2]%nat false
     = verifyRecoverableES256K heap "data" compact_signature [2%nat] false None
  /\ verifyES256K heap "data" compact_signature [0; 3; 2]%nat false = Ok 3%nat
  /\ verifyES256K heap "data" compact_signature [0%nat] false = Throw signature_invalid.
Proof.
  assert (Hsig : toSignatureObject compact_signature false None
                 = Ok (mkSig zeros zeros None)) by (vm_compute; reflexivity).
  assert (Hlen : (String.length compact_signature <= 86)%nat) by (vm_compute; lia).
  split; [exact Hsig |]. split; [exact Hlen |]. split; [| split].
  - destruct (verifyES256K_fallback heap "data" compact_signature [0; 2]%nat false
                _ Hsig Hlen) as (_ & Hfall & _).
    apply Hfall; [vm_compute; reflexivity | discriminate].
  - destruct (verifyES256K_fallback heap "data" compact_signature [0; 3; 2]%nat false
                _ Hsig Hlen) as (Hkey & _).
    apply Hkey. vm_compute. reflexivity.
  - destruct (verifyES256K_fallback heap "data" compact_signature [0%nat] false
                _ Hsig Hlen) as (_ & _ & Hnone & _).
    apply Hnone; vm_compute; reflexivity.
Defined.

Lemma signer_is_a_candidate_witness :
  call heap VerifyES256K "data" compact_signature [0; 1]%nat None None = Ok 1%nat
  /\ In 1%nat [0; 1]%nat.
Proof.
  assert (H : call heap VerifyES256K "data" compact_signature [0; 1]%nat None None
              = Ok 1%nat) by (vm_compute; reflexivity).
  split; [exact H |].
  exact (signer_is_a_candidate heap VerifyES256K "data" compact_signature
           [0; 1]%nat None None 1%nat H).
Defined.

Lemma ES256K_ignores_chainId_witness :
  call heap VerifyES256K "data" compact_signature [0; 2]%nat (Some true) (Some 31)
  = call heap VerifyES256K "data" compact_signature [0; 2]%nat (Some true) None
  /\ call heap VerifyES256K "data" compact_signature [0; 2]%nat (Some true) (Some 31)
     = verifyRecoverableES256K heap "data" compact_signature [2%nat] true None.
Proof.
  destruct (ES256K_ignores_chainId heap "data" compact_signature [0; 2]%nat
              (Some true) (Some 31) None) as (_ & Hsame & Hfall).
  split; [exact Hsame |].
  apply (Hfall (mkSig zeros zeros None)).
  - vm_compute. reflexivity.
  - vm_compute. reflexivity.
  - discriminate.
Defined.


(** * Further properties of the module *)

(** ** The recovery value between signer and decoder *)

(** What the chain id amounts to for signer and decoder alike: [undefined]
    and 0 are no chain id. *)
Lemma truthy_number_false (chainId : option Z) :
  truthy_number chainId = false <-> chainId = None \/ chainId = Some 0.
Proof.
  destruct chainId as [c |]; simpl.
  - destruct (Z.eqb_spec c 0) as [-> | Hc]; simpl; split; auto.
    + discriminate.
    + intros [H | H]; [discriminate | congruence].
  - split; auto.
Qed.

(** X1: the recovery value that [personalSign] writes for the parity [rec]
    under a chain id (none, or one from -4 on for which the value fits a
    byte: up to 110, or 109 for the parity 1) is a byte, and
    [calculateSigRecovery] decodes it under the same chain id to [rec]. *)
Theorem personalSign_round_trip (rec : Z) (chainId : option Z) :
  rec = 0 \/ rec = 1 ->
  (forall c, chainId = Some c -> -4 <= c /\ c * 2 + 35 + rec <= 255) ->
  0 <= personalSign_v (27 + rec) chainId <= 255
  /\ calculateSigRecovery (personalSign_v (27 + rec) chainId) chainId = rec.
Proof.
  intros Hrec Hc. unfold calculateSigRecovery, personalSign_v.
  destruct (truthy_number chainId) eqn:Ht.
  - apply truthy_number_spec in Ht. destruct Ht as (c & -> & Hnz).
    specialize (Hc c eq_refl).
    destruct (Z.ltb_spec (27 + rec + (c * 2 + 35) - 27) 27); lia.
  - destruct (Z.ltb_spec (27 + rec) 27); lia.
Qed.

(** X2: a recovery value written by [personalSign] under one chain id decodes
    to a parity (0 or 1) under another exactly when the two amount to the
    same chain: both none (or 0), or the same number; for chain ids from 0
    on that a byte carries (the signer's such that the value fits the byte,
    the decoder's up to 110). *)
Theorem recovery_value_is_bound_to_its_chain (rec : Z) (signed given : option Z) :
  rec = 0 \/ rec = 1 ->
  (forall c, signed = Some c -> 0 <= c /\ c * 2 + 35 + rec <= 255) ->
  (forall c, given = Some c -> 0 <= c <= 110) ->
  let p := calculateSigRecovery (personalSign_v (27 + rec) signed) given in
  (p = 0 \/ p = 1)
  <-> ((truthy_number signed = false /\ truthy_number given = false)
       \/ (truthy_number signed = true /\ signed = given)).
Proof.
  intros Hrec Hs Hg p. subst p. unfold calculateSigRecovery, personalSign_v.
  destruct (truthy_number signed) eqn:Hts; destruct (truthy_number given) eqn:Htg.
  - apply truthy_number_spec in Hts, Htg.
    destruct Hts as (c & -> & Hc). destruct Htg as (c' & -> & Hc').
    specialize (Hs c eq_refl). specialize (Hg c' eq_refl).
    destruct (Z.ltb_spec (27 + rec + (c * 2 + 35) - 27) 27); [lia |].
    split.
    + intros H'. right. split; [reflexivity |]. f_equal. lia.
    + intros [[H' _] | [_ H']]; [discriminate |].
      assert (c = c') by congruence. lia.
  - apply truthy_number_spec in Hts. destruct Hts as (c & -> & Hc).
    specialize (Hs c eq_refl).
    destruct (Z.ltb_spec (27 + rec + (c * 2 + 35) - 27) 27); [lia |].
    split; [lia |].
    intros [[H' _] | [_ H']]; [discriminate |].
    apply truthy_number_false in Htg. destruct Htg as [Hn | Hz]; congruence.
  - apply truthy_number_spec in Htg. destruct Htg as (c' & -> & Hc').
    specialize (Hg c' eq_refl).
    destruct (Z.ltb_spec (27 + rec) 27); [lia |].
    split; [lia |]. intros [[_ H'] | [H' _]]; discriminate.
  - destruct (Z.ltb_spec (27 + rec) 27); [lia |].
    split; [intros _; now left | lia].
Qed.

(** ** More on the array methods *)

Section Scans.

Variable A : Type.

Lemma findM_inv (p : A -> result bool) (l : list A) (a : A) :
  findM p l = Ok (Some a) ->
  exists pre post,
    l = (pre ++ a :: post)%list
    /\ (forall c, In c pre -> p c = Ok false)
    /\ p a = Ok true.
Proof.
  induction l as [| c l IH]; simpl; [discriminate |].
  destruct (p c) as [[|] | e] eqn:Hc; simpl; intros H.
  - injection H as ->. exists [], l. repeat split; [intros c [] | exact Hc].
  - destruct (IH H) as (pre & post & -> & Hpre & Ha).
    exists (c :: pre), post. repeat split; [| exact Ha].
    intros c' [<- | Hc']; [exact Hc | now apply Hpre].
  - discriminate.
Qed.

Lemma findM_none (p : A -> result bool) (l : list A) :
  (forall c, In c l -> p c = Ok false) ->
  findM p l = Ok None.
Proof.
  induction l as [| c l IH]; simpl; intros H; [reflexivity |].
  rewrite (H c) by now left. simpl. apply IH. intros c' Hc'. apply H. now right.
Qed.

Lemma find_ext_in (p q : A -> bool) (l : list A) :
  (forall c, In c l -> p c = q c) ->
  find p l = find q l.
Proof.
  induction l as [| c l IH]; simpl; intros H; [reflexivity |].
  rewrite (H c) by now left.
  destruct (q c); [reflexivity |]. apply IH. intros c' Hc'. apply H. now right.
Qed.

Lemma findM_ext_in (p q : A -> result bool) (l : list A) :
  (forall c, In c l -> p c = q c) ->
  findM p l = findM q l.
Proof.
  induction l as [| c l IH]; simpl; intros H; [reflexivity |].
  rewrite (H c) by now left.
  destruct (q c) as [[|] | e]; simpl; try reflexivity.
  apply IH. intros c' Hc'. apply H. now right.
Qed.

Lemma mapM_all_null (B : Type) (f : A -> result (option B)) (l : list A) :
  (forall x, In x l -> f x = Ok None) ->
  exists found, mapM f l = Ok found /\ non_null found = [].
Proof.
  induction l as [| x l IH]; simpl; intros H.
  - now exists [].
  - rewrite (H x) by now left. simpl.
    destruct IH as (found & -> & Hnn); [intros x' Hx'; apply H; now right |].
    simpl. exists (None :: found). split; [reflexivity | exact Hnn].
Qed.

Lemma mapM_ext (B : Type) (f g : A -> result B) (l : list A) :
  (forall x, f x = g x) -> mapM f l = mapM g l.
Proof.
  intros H. induction l as [| x l IH]; simpl; [reflexivity |].
  now rewrite H, IH.
Qed.

End Scans.

(** ** Structural errors and empty lists *)

Section Edges.

Context {C : Collaborators}.
Variable heap : loc -> PublicKey.

Lemma toSignatureObject_wrong_length (signature : string) (recoverable : bool)
    (chainId : option Z) (rawsig : bytes) :
  base64urlToBytes signature = Ok rawsig ->
  List.length rawsig <> (if recoverable then 65 else 64)%nat ->
  toSignatureObject signature recoverable chainId = Throw wrong_signature_length.
Proof.
  intros Hraw Hlen. rewrite (toSignatureObject_decoded _ recoverable chainId _ Hraw).
  now destruct (Nat.eqb_spec (List.length rawsig) (if recoverable then 65 else 64)%nat).
Qed.

(** X3: a signature of the wrong decoded length makes [verifyES256K] (other
    than 64 bytes) and [verifyRecoverableES256K] (other than 65 bytes for a
    string of more than 86 characters, than 64 otherwise) throw 'wrong
    signature length', whatever the candidates, the data and the flags: no
    candidate is looked at and no key is recovered. *)
Theorem wrong_length_precedes_the_scan (data signature : string)
    (authenticators : list loc) (ethPersonal : bool) (chainId : option Z)
    (rawsig : bytes) :
  base64urlToBytes signature = Ok rawsig ->
  (List.length rawsig <> 64%nat ->
   verifyES256K heap data signature authenticators ethPersonal
   = Throw wrong_signature_length)
  /\ (List.length rawsig <> (if (86 <? String.length signature)%nat then 65 else 64)%nat ->
      verifyRecoverableES256K heap data signature authenticators ethPersonal chainId
      = Throw wrong_signature_length).
Proof.
  intros Hraw. split; intros Hlen.
  - unfold verifyES256K.
    now rewrite (toSignatureObject_wrong_length signature false None rawsig Hraw Hlen).
  - unfold verifyRecoverableES256K, signatures_of.
    destruct (86 <? String.length signature)%nat.
    + now rewrite (toSignatureObject_wrong_length signature true chainId rawsig Hraw Hlen).
    + now rewrite (toSignatureObject_wrong_length signature false chainId rawsig Hraw Hlen).
Qed.

(** X4: with no candidates, [verifyES256K] on a signature that decodes and
    [verifyEd25519] on a signature string that decodes throw 'Signature
    invalid for JWT'; [verifyRecoverableES256K] never returns, and throws
    'Signature invalid for JWT' when a key is recovered for each attempt. *)
Theorem no_candidates (data signature : string) (ethPersonal : bool)
    (chainId : option Z) :
  (forall sigObj,
     toSignatureObject signature false None = Ok sigObj ->
     verifyES256K heap data signature [] ethPersonal = Throw signature_invalid)
  /\ (forall sig,
        base64urlToBytes signature = Ok sig ->
        verifyEd25519 heap data signature [] = Throw signature_invalid)
  /\ (forall k,
        verifyRecoverableES256K heap data signature [] ethPersonal chainId <> Ok k)
  /\ (forall sigs,
        signatures_of signature chainId = Ok sigs ->
        (forall so, In so sigs ->
           exists P, recoverPubKey (sha256OrPersonal data ethPersonal) so
                       (recoveryParam so) = Ok P) ->
        verifyRecoverableES256K heap data signature [] ethPersonal chainId
        = Throw signature_invalid).
Proof.
  split; [| split; [| split]].
  - intros sigObj Hsig. now rewrite (verifyES256K_decoded heap _ _ _ _ _ Hsig).
  - intros sig Hsig. unfold verifyEd25519. now rewrite Hsig.
  - intros k Hk. exact (verifyRecoverableES256K_In heap _ _ _ _ _ _ Hk).
  - intros sigs Hsigs Hrec. unfold verifyRecoverableES256K. rewrite Hsigs. simpl.
    destruct (mapM_all_null _ _ (checkSignatureAgainstSigner heap data [] ethPersonal) sigs)
      as (found & -> & Hnn).
    + intros so Hso. destruct (Hrec so Hso) as [P HP].
      now rewrite (checkSignatureAgainstSigner_recovered heap _ _ _ _ _ HP).
    + simpl. now rewrite Hnn.
Qed.

End Edges.

(** ** What a returned descriptor has passed *)

Section Soundness.

Context {C : Collaborators}.
Variable heap : loc -> PublicKey.

Lemma field_eqb_spec (x : option string) (y : string) :
  field_eqb x y = true <-> x = Some y.
Proof.
  destruct x as [v |]; simpl.
  - rewrite String.eqb_eq. split; congruence.
  - split; discriminate.
Qed.

Lemma matches_recovered_spec (full compact address : string) (a : loc) :
  matches_recovered heap full compact address a = true
  <-> publicKeyHex (heap a) = Some full
      \/ publicKeyHex (heap a) = Some compact
      \/ ethereumAddress (heap a) = Some address.
Proof.
  unfold matches_recovered.
  rewrite !orb_true_iff, !field_eqb_spec. tauto.
Qed.

(** X5: a descriptor that [verifyEd25519] returns is a candidate whose
    decoded [publicKeyBase64] the primitive accepted for the decoded
    signature over the UTF-8 bytes of the data, and every candidate in front
    of it was decoded and rejected. *)
Theorem verifyEd25519_sound (data signature : string) (authenticators : list loc)
    (k : loc) :
  verifyEd25519 heap data signature authenticators = Ok k ->
  exists sig key pre post,
    base64urlToBytes signature = Ok sig
    /\ authenticators = (pre ++ k :: post)%list
    /\ base64ToBytes (publicKeyBase64 (heap k)) = Ok key
    /\ edVerify key (encode data) sig = Ok true
    /\ (forall c, In c pre ->
          exists key', base64ToBytes (publicKeyBase64 (heap c)) = Ok key'
                       /\ edVerify key' (encode data) sig = Ok false).
Proof.
  unfold verifyEd25519.
  destruct (base64urlToBytes signature) as [sig | e]; simpl; [| discriminate].
  destruct (findM _ authenticators) as [[k' |] | e] eqn:Hfind; simpl; try discriminate.
  intros H. injection H as ->.
  destruct (findM_inv _ _ _ _ Hfind) as (pre & post & Hl & Hpre & Hk).
  unfold ed_accepts in Hk.
  destruct (base64ToBytes (publicKeyBase64 (heap k))) as [key | e] eqn:Hkey;
    simpl in Hk; [| discriminate].
  exists sig, key, pre, post. repeat split; auto.
  intros c Hc. specialize (Hpre c Hc). unfold ed_accepts in Hpre.
  destruct (base64ToBytes (publicKeyBase64 (heap c))) as [key' | e];
    simpl in Hpre; [| discriminate].
  now exists key'.
Qed.

(** X6: when the primitive rejects the signature for every candidate,
    [verifyEd25519] throws 'Signature invalid for JWT'. *)
Theorem verifyEd25519_all_rejected (data signature : string) (sig : bytes)
    (authenticators : list loc) :
  base64urlToBytes signature = Ok sig ->
  (forall c, In c authenticators ->
     exists key, base64ToBytes (publicKeyBase64 (heap c)) = Ok key
                 /\ edVerify key (encode data) sig = Ok false) ->
  verifyEd25519 heap data signature authenticators = Throw signature_invalid.
Proof.
  intros Hsig Hall. unfold verifyEd25519. rewrite Hsig. simpl.
  rewrite findM_none; [reflexivity |].
  intros c Hc. destruct (Hall c Hc) as (key & Hkey & Hno).
  unfold ed_accepts. now rewrite Hkey.
Qed.

Lemma checkSignatureAgainstSigner_sound (data : string) (authenticators : list loc)
    (ethPersonal : bool) (sigObj : EcdsaSignature) (k : loc) :
  checkSignatureAgainstSigner heap data authenticators ethPersonal sigObj = Ok (Some k) ->
  exists P,
    recoverPubKey (sha256OrPersonal data ethPersonal) sigObj (recoveryParam sigObj) = Ok P
    /\ In k authenticators
    /\ (publicKeyHex (heap k) = Some (encodePoint P false)
        \/ publicKeyHex (heap k) = Some (encodePoint P true)
        \/ ethereumAddress (heap k) = Some (toEthereumAddress (encodePoint P false))).
Proof.
  unfold checkSignatureAgainstSigner.
  destruct (recoverPubKey _ _ _) as [P | e]; simpl; [| discriminate].
  intros H. injection H as H. apply find_some in H. destruct H as [Hin Hm].
  exists P. split; [reflexivity |]. split; [exact Hin |].
  now apply matches_recovered_spec.
Qed.

Lemma signatures_of_inv (signature : string) (chainId : option Z)
    (sigs : list EcdsaSignature) (so : EcdsaSignature) :
  signatures_of signature chainId = Ok sigs ->
  In so sigs ->
  ((86 < String.length signature)%nat
   /\ toSignatureObject signature true chainId = Ok so)
  \/ ((String.length signature <= 86)%nat
      /\ exists decoded j,
           toSignatureObject signature false chainId = Ok decoded
           /\ (j = 0 \/ j = 1)
           /\ so = mkSig (r decoded) (s decoded) (Some j)).
Proof.
  unfold signatures_of.
  destruct (Nat.ltb_spec 86 (String.length signature)) as [Hlen | Hlen].
  - destruct (toSignatureObject signature true chainId) as [so' | e]; simpl;
      [| discriminate].
    intros H Hin. injection H as <-. destruct Hin as [<- | []]. now left.
  - destruct (toSignatureObject signature false chainId) as [so' | e]; simpl;
      [| discriminate].
    intros H Hin. injection H as <-. right. split; [exact Hlen |].
    destruct Hin as [<- | [<- | []]].
    + exists so', 0. auto.
    + exists so', 1. auto.
Qed.

(** X7: a descriptor that [verifyRecoverableES256K] returns is a candidate
    that stores, as [publicKeyHex] or as [ethereumAddress], the uncompressed
    key, the compressed key or the address of a key recovered from the
    signature: from its own recovery byte when the string has more than 86
    characters, with [recoveryParam] 0 or 1 otherwise. *)
Theorem verifyRecoverableES256K_sound (data signature : string)
    (authenticators : list loc) (ethPersonal : bool) (chainId : option Z) (k : loc) :
  verifyRecoverableES256K heap data signature authenticators ethPersonal chainId = Ok k ->
  exists so P,
    (((86 < String.length signature)%nat
      /\ toSignatureObject signature true chainId = Ok so)
     \/ ((String.length signature <= 86)%nat
         /\ exists decoded j,
              toSignatureObject signature false chainId = Ok decoded
              /\ (j = 0 \/ j = 1)
              /\ so = mkSig (r decoded) (s decoded) (Some j)))
    /\ recoverPubKey (sha256OrPersonal data ethPersonal) so (recoveryParam so) = Ok P
    /\ In k authenticators
    /\ (publicKeyHex (heap k) = Some (encodePoint P false)
        \/ publicKeyHex (heap k) = Some (encodePoint P true)
        \/ ethereumAddress (heap k) = Some (toEthereumAddress (encodePoint P false))).
Proof.
  unfold verifyRecoverableES256K.
  destruct (signatures_of signature chainId) as [sigs | e] eqn:Hsigs; simpl;
    [| discriminate].
  destruct (mapM _ sigs) as [found | e] eqn:Hmap; simpl; [| discriminate].
  destruct (non_null found) as [| first rest] eqn:Hnn; [discriminate |].
  intros H. injection H as ->.
  assert (Hin : In (Some k) found)
    by (apply non_null_In; rewrite Hnn; now left).
  destruct (mapM_In _ _ _ _ _ _ Hmap Hin) as (so & Hso & Hcheck).
  destruct (checkSignatureAgainstSigner_sound _ _ _ _ _ Hcheck) as (P & HP & Hk & Hm).
  exists so, P. split; [exact (signatures_of_inv _ _ _ _ Hsigs Hso) |]. auto.
Qed.

(** X8: a descriptor that [verifyES256K] returns is a candidate with a
    [publicKeyHex] that decodes to a key under which the signature verifies;
    or no candidate with a [publicKeyHex] verifies, and it is a candidate
    with an [ethereumAddress] that stores an encoding or the address of the
    key recovered from the signature with [recoveryParam] 0 or 1. *)
Theorem verifyES256K_sound (data signature : string) (authenticators : list loc)
    (ethPersonal : bool) (k : loc) :
  verifyES256K heap data signature authenticators ethPersonal = Ok k ->
  let hash := sha256OrPersonal data ethPersonal in
  exists sigObj,
    toSignatureObject signature false None = Ok sigObj
    /\ In k authenticators
    /\ ((exists key,
           publicKeyHex (heap k) <> None
           /\ keyFromPublic (publicKeyHex (heap k)) = Ok key
           /\ ecVerify key hash sigObj = Ok true)
        \/ ((forall c, In c authenticators -> publicKeyHex (heap c) <> None ->
               verifies heap hash sigObj c = false)
            /\ ethereumAddress (heap k) <> None
            /\ exists j P,
                 (j = 0 \/ j = 1)
                 /\ recoverPubKey hash (mkSig (r sigObj) (s sigObj) (Some j)) (Some j) = Ok P
                 /\ (publicKeyHex (heap k) = Some (encodePoint P false)
                     \/ publicKeyHex (heap k) = Some (encodePoint P true)
                     \/ ethereumAddress (heap k)
                        = Some (toEthereumAddress (encodePoint P false))))).
Proof.
  intros H hash.
  assert (Hk := verifyES256K_In heap _ _ _ _ _ H).
  destruct (toSignatureObject signature false None) as [sigObj | e] eqn:Hsig;
    [| unfold verifyES256K in H; rewrite Hsig in H; discriminate].
  exists sigObj. split; [reflexivity |]. split; [exact Hk |].
  rewrite (verifyES256K_decoded heap _ _ _ _ _ Hsig) in H. fold hash in H.
  destruct (find _ _) as [k' |] eqn:Hfind.
  - injection H as ->. left.
    apply find_some in Hfind. destruct Hfind as [Hin Hv].
    apply filter_In in Hin. destruct Hin as [_ Hdef].
    apply verifies_caught in Hv.
    destruct (keyFromPublic (publicKeyHex (heap k))) as [key | e] eqn:Hkey;
      simpl in Hv; [| discriminate].
    exists key. split; [| auto].
    destruct (publicKeyHex (heap k)); [discriminate | discriminate].
  - right.
    destruct (filter (fun a => defined (ethereumAddress (heap a))) authenticators)
      as [| a l] eqn:He in H; [discriminate |].
    rewrite <- He in H.
    destruct (verifyRecoverableES256K_sound _ _ _ _ _ _ H)
      as (so & P & Hso & HP & Hin & Hm).
    split; [| split].
    + intros c Hc Hdef. apply (find_none _ _ Hfind).
      apply filter_In. split; [exact Hc |]. now destruct (publicKeyHex (heap c)).
    + apply filter_In in Hin. destruct Hin as [_ Hdef].
      now destruct (ethereumAddress (heap k)).
    + destruct Hso as [[_ Hrec] | (_ & decoded & j & Hdec & Hj & ->)].
      * exfalso.
        destruct (toSignatureObject_inv _ _ _ _ Hsig) as (raw & Hraw & Hlen & _).
        destruct (toSignatureObject_inv _ _ _ _ Hrec) as (raw' & Hraw' & Hlen' & _).
        rewrite Hraw in Hraw'. injection Hraw' as <-. simpl in Hlen, Hlen'. lia.
      * rewrite Hsig in Hdec. injection Hdec as <-. simpl in HP.
        exists j, P. auto.
Qed.

End Soundness.

(** ** What the verifiers read *)

Section Frame.

Context {C : Collaborators}.
Variables heap heap' : loc -> PublicKey.

Lemma checkSignatureAgainstSigner_frame (data : string) (authenticators : list loc)
    (ethPersonal : bool) (sigObj : EcdsaSignature) :
  (forall c, In c authenticators ->
     publicKeyHex (heap c) = publicKeyHex (heap' c)
     /\ ethereumAddress (heap c) = ethereumAddress (heap' c)) ->
  checkSignatureAgainstSigner heap data authenticators ethPersonal sigObj
  = checkSignatureAgainstSigner heap' data authenticators ethPersonal sigObj.
Proof.
  intros Hsame. unfold checkSignatureAgainstSigner.
  destruct (recoverPubKey _ _ _) as [P | e]; simpl; [| reflexivity].
  f_equal. apply find_ext_in. intros c Hc.
  destruct (Hsame c Hc) as [Hhex Heth].
  unfold matches_recovered. now rewrite Hhex, Heth.
Qed.

Lemma verifyRecoverableES256K_frame (data signature : string)
    (authenticators : list loc) (ethPersonal : bool) (chainId : option Z) :
  (forall c, In c authenticators ->
     publicKeyHex (heap c) = publicKeyHex (heap' c)
     /\ ethereumAddress (heap c) = ethereumAddress (heap' c)) ->
  verifyRecoverableES256K heap data signature authenticators ethPersonal chainId
  = verifyRecoverableES256K heap' data signature authenticators ethPersonal chainId.
Proof.
  intros Hsame. unfold verifyRecoverableES256K.
  destruct (signatures_of signature chainId) as [sigs | e]; simpl; [| reflexivity].
  rewrite (mapM_ext _ _ _ (checkSignatureAgainstSigner heap' data authenticators ethPersonal));
    [reflexivity |].
  intros so. now apply checkSignatureAgainstSigner_frame.
Qed.

Lemma verifyES256K_frame (data signature : string) (authenticators : list loc)
    (ethPersonal : bool) :
  (forall c, In c authenticators ->
     publicKeyHex (heap c) = publicKeyHex (heap' c)
     /\ ethereumAddress (heap c) = ethereumAddress (heap' c)) ->
  verifyES256K heap data signature authenticators ethPersonal
  = verifyES256K heap' data signature authenticators ethPersonal.
Proof.
  intros Hsame.
  destruct (toSignatureObject signature false None) as [sigObj | e] eqn:Hsig;
    [| unfold verifyES256K; now rewrite Hsig].
  rewrite (verifyES256K_decoded heap _ _ _ _ _ Hsig),
    (verifyES256K_decoded heap' _ _ _ _ _ Hsig).
  assert (Hfull : filter (fun a => defined (publicKeyHex (heap a))) authenticators
                  = filter (fun a => defined (publicKeyHex (heap' a))) authenticators).
  { apply filter_ext_in. intros c Hc. destruct (Hsame c Hc) as [Hhex _].
    now rewrite Hhex. }
  assert (Heth : filter (fun a => defined (ethereumAddress (heap a))) authenticators
                 = filter (fun a => defined (ethereumAddress (heap' a))) authenticators).
  { apply filter_ext_in. intros c Hc. destruct (Hsame c Hc) as [_ Haddr].
    now rewrite Haddr. }
  rewrite <- Hfull, <- Heth.
  rewrite (find_ext_in _ (verifies heap (sha256OrPersonal data ethPersonal) sigObj)
             (verifies heap' (sha256OrPersonal data ethPersonal) sigObj)).
  - destruct (find _ _); [reflexivity |].
    destruct (filter (fun a => defined (ethereumAddress (heap a))) authenticators)
      as [| a l] eqn:He; [reflexivity |].
    apply verifyRecoverableES256K_frame.
    intros c Hc. apply Hsame. rewrite <- He in Hc. now apply filter_In in Hc.
  - intros c Hc. apply filter_In in Hc. destruct Hc as [Hc _].
    destruct (Hsame c Hc) as [Hhex _]. unfold verifies. now rewrite Hhex.
Qed.

Lemma verifyEd25519_frame (data signature : string) (authenticators : list loc) :
  (forall c, In c authenticators ->
     publicKeyBase64 (heap c) = publicKeyBase64 (heap' c)) ->
  verifyEd25519 heap data signature authenticators
  = verifyEd25519 heap' data signature authenticators.
Proof.
  intros Hsame. unfold verifyEd25519.
  destruct (base64urlToBytes signature) as [sig | e]; simpl; [| reflexivity].
  rewrite (findM_ext_in _ (ed_accepts heap (encode data) sig)
             (ed_accepts heap' (encode data) sig)); [reflexivity |].
  intros c Hc. unfold ed_accepts. now rewrite (Hsame c Hc).
Qed.

(** X9: the outcome of a verifier depends on the descriptors only through
    the key material of the candidates in the list: [publicKeyHex] and
    [ethereumAddress] for the two secp256k1 verifiers, [publicKeyBase64] for
    [verifyEd25519]. The [id], [type] and [controller] of a candidate, its
    other key fields and every other object are not read. *)
Theorem only_key_material_is_read (impl : Verifier) (data signature : string)
    (authenticators : list loc) (eip155 : option bool) (chainId : option Z) :
  (forall c, In c authenticators ->
     match impl with
     | VerifyEd25519 => publicKeyBase64 (heap c) = publicKeyBase64 (heap' c)
     | _ =>
         publicKeyHex (heap c) = publicKeyHex (heap' c)
         /\ ethereumAddress (heap c) = ethereumAddress (heap' c)
     end) ->
  call heap impl data signature authenticators eip155 chainId
  = call heap' impl data signature authenticators eip155 chainId.
Proof.
  destruct impl; simpl; intros Hsame.
  - now apply verifyES256K_frame.
  - now apply verifyRecoverableES256K_frame.
  - now apply verifyEd25519_frame.
Qed.

End Frame.

(** ** The chain id and the compact signature *)

Section Compact.

Context {C : Collaborators}.
Variable heap : loc -> PublicKey.

(** X10: for a signature string of at most 86 characters the outcome of
    [verifyRecoverableES256K] is the same for any two chain ids: the chain id
    is only read when a recovery byte is decoded. *)
Theorem compact_signature_ignores_chainId (data signature : string)
    (authenticators : list loc) (ethPersonal : bool) (chainId chainId' : option Z) :
  (String.length signature <= 86)%nat ->
  verifyRecoverableES256K heap data signature authenticators ethPersonal chainId
  = verifyRecoverableES256K heap data signature authenticators ethPersonal chainId'.
Proof.
  intros Hlen.
  rewrite (recoverer_pair heap data signature authenticators ethPersonal chainId Hlen),
    (recoverer_pair heap data signature authenticators ethPersonal chainId' Hlen).
  reflexivity.
Qed.

End Compact.

(** ** The outcomes of the dispatcher *)

(** X11: the dispatcher returns a function of the table exactly for the four
    identifiers, compared as they are written: [verifyES256K] for "ES256K",
    [verifyRecoverableES256K] for "ES256K-R" and [verifyEd25519] for
    "Ed25519" and "EdDSA"; when it throws, the message is 'Unsupported
    algorithm ' followed by the identifier, which is then neither one of the
    four nor a member of [Object.prototype]; and an inherited member is only
    returned under its own name. *)
Theorem VerifierAlgorithm_outcomes (alg : string) :
  (forall impl,
     VerifierAlgorithm alg = Ok (Own impl)
     <-> ((alg = "ES256K" /\ impl = VerifyES256K)
          \/ (alg = "ES256K-R" /\ impl = VerifyRecoverableES256K)
          \/ ((alg = "Ed25519" \/ alg = "EdDSA") /\ impl = VerifyEd25519)))
  /\ (forall e,
        VerifierAlgorithm alg = Throw e ->
        e = "Unsupported algorithm " ++ alg
        /\ ~ In alg ["ES256K"; "ES256K-R"; "Ed25519"; "EdDSA"]
        /\ ~ In alg Object_prototype)
  /\ (forall name,
        VerifierAlgorithm alg = Ok (Inherited name) ->
        name = alg /\ In alg Object_prototype).
Proof.
  unfold VerifierAlgorithm, get, algorithms, assoc.
  destruct (String.eqb_spec alg "ES256K") as [-> | H1].
  { split; [| split; discriminate].
    intros impl. split.
    - intros H. injection H as <-. auto.
    - intros [[_ ->] | [[H _] | [[H | H] _]]]; [reflexivity | | |]; discriminate. }
  destruct (String.eqb_spec alg "ES256K-R") as [-> | H2].
  { split; [| split; discriminate].
    intros impl. split.
    - intros H. injection H as <-. auto.
    - intros [[H _] | [[_ ->] | [[H | H] _]]]; [| reflexivity | |]; discriminate. }
  destruct (String.eqb_spec alg "Ed25519") as [-> | H3].
  { split; [| split; discriminate].
    intros impl. split.
    - intros H. injection H as <-. auto.
    - intros [[H _] | [[H _] | [_ ->]]]; [| | reflexivity]; discriminate. }
  destruct (String.eqb_spec alg "EdDSA") as [-> | H4].
  { split; [| split; discriminate].
    intros impl. split.
    - intros H. injection H as <-. auto.
    - intros [[H _] | [[H _] | [_ ->]]]; [| | reflexivity]; discriminate. }
  assert (Hown : ~ In alg ["ES256K"; "ES256K-R"; "Ed25519"; "EdDSA"]).
  { simpl. intros [H | [H | [H | [H | []]]]]; congruence. }
  destruct (existsb (String.eqb alg) Object_prototype) eqn:Hproto.
  - split; [| split].
    + intros impl. split; [discriminate |].
      intros [[H _] | [[H _] | [[H | H] _]]]; congruence.
    + discriminate.
    + intros name H. injection H as <-. split; [reflexivity |].
      apply existsb_exists in Hproto. destruct Hproto as (x & Hin & Heq).
      apply String.eqb_eq in Heq. now subst x.
  - split; [| split].
    + intros impl. split; [discriminate |].
      intros [[H _] | [[H _] | [[H | H] _]]]; congruence.
    + intros e H. injection H as <-. split; [reflexivity |]. split; [exact Hown |].
      intros Hin. assert (Ht : existsb (String.eqb alg) Object_prototype = true).
      { apply existsb_exists. exists alg. split; [exact Hin | apply String.eqb_refl]. }
      congruence.
    + discriminate.
Qed.

(** ** One byte for the recovery value *)

Section RecoveryByte.

Context {C : Collaborators}.
Variable heap : loc -> PublicKey.

(** X12: the recovery value is read from one byte, so with a chain id above
    110 no byte carries a chain-bound parity: a recoverable signature then
    decodes to a [recoveryParam] of 0 or 1 only when its last byte is 0 or 1
    itself, and to a negative one for every byte from 27 on. *)
Theorem large_chain_id_has_no_recovery_byte (signature : string) (chainId : Z)
    (sigObj : EcdsaSignature) (p : Z) :
  110 < chainId ->
  toSignatureObject signature true (Some chainId) = Ok sigObj ->
  recoveryParam sigObj = Some p ->
  exists rawsig,
    base64urlToBytes signature = Ok rawsig
    /\ ((p = 0 \/ p = 1) <-> (byte_at rawsig 64 = 0 \/ byte_at rawsig 64 = 1))
    /\ (27 <= byte_at rawsig 64 -> p < 0).
Proof.
  intros Hc Hsig Hp.
  destruct (toSignatureObject_inv _ _ _ _ Hsig) as (rawsig & Hraw & _ & ->).
  simpl in Hp. injection Hp as <-.
  exists rawsig. split; [exact Hraw |].
  pose proof (byte_at_range rawsig 64) as Hb.
  unfold calculateSigRecovery.
  assert (Ht : truthy_number (Some chainId) = true)
    by (apply truthy_number_spec; exists chainId; split; [reflexivity | lia]).
  rewrite Ht.
  destruct (Z.ltb_spec (byte_at rawsig 64) 27); split; lia.
Qed.

(** X13: for a signature string of at most 86 characters from which a key is
    recovered with [recoveryParam] 0 and with 1, the first candidate that
    stores the key recovered with 0 is returned; and when no candidate
    stores that one, the first candidate that stores the key recovered with
    1 is returned. *)
Theorem either_parity_is_found (data signature : string) (ethPersonal : bool)
    (chainId : option Z) (decoded : EcdsaSignature) (P0 P1 : Point)
    (pre post : list loc) (a : loc) (j : Z) :
  (String.length signature <= 86)%nat ->
  toSignatureObject signature false chainId = Ok decoded ->
  let hash := sha256OrPersonal data ethPersonal in
  recoverPubKey hash (mkSig (r decoded) (s decoded) (Some 0)) (Some 0) = Ok P0 ->
  recoverPubKey hash (mkSig (r decoded) (s decoded) (Some 1)) (Some 1) = Ok P1 ->
  let stores P :=
    matches_recovered heap (encodePoint P false) (encodePoint P true)
      (toEthereumAddress (encodePoint P false)) in
  j = 0 \/ j = 1 ->
  (j = 1 -> forall c, In c (pre ++ a :: post)%list -> stores P0 c = false) ->
  (forall c, In c pre -> stores (if j =? 0 then P0 else P1) c = false) ->
  stores (if j =? 0 then P0 else P1) a = true ->
  verifyRecoverableES256K heap data signature (pre ++ a :: post)%list ethPersonal chainId
  = Ok a.
Proof.
  intros Hlen Hsig hash H0 H1 stores Hj Hnone Hpre Ha.
  rewrite (recoverer_pair heap _ _ _ _ _ Hlen), Hsig. simpl.
  rewrite (checkSignatureAgainstSigner_recovered heap _ _ _ _ _ H0). simpl.
  rewrite (checkSignatureAgainstSigner_recovered heap _ _ _ _ _ H1). simpl.
  fold (stores P0). fold (stores P1).
  destruct Hj as [-> | ->]; simpl in Hpre, Ha.
  - now rewrite (find_first _ (stores P0) pre post a Hpre Ha).
  - rewrite (find_first _ (stores P1) pre post a Hpre Ha).
    destruct (find (stores P0) (pre ++ a :: post)%list) as [k |] eqn:Hfind;
      [| reflexivity].
    apply find_some in Hfind. destruct Hfind as [Hin Hk].
    rewrite (Hnone eq_refl k Hin) in Hk. discriminate.
Qed.

End RecoveryByte.

(** ** The further properties at sample inputs *)

Lemma personalSign_round_trip_witness :
  (forall c, Some 31 = Some c -> -4 <= c /\ c * 2 + 35 + 1 <= 255)
  /\ personalSign_v (27 + 1) (Some 31) = 98
  /\ calculateSigRecovery (personalSign_v (27 + 1) (Some 31)) (Some 31) = 1.
Proof.
  assert (Hc : forall c, Some 31 = Some c -> -4 <= c /\ c * 2 + 35 + 1 <= 255)
    by (intros c H; injection H as <-; lia).
  split; [exact Hc |]. split; [reflexivity |].
  exact (proj2 (personalSign_round_trip 1 (Some 31) (or_intror eq_refl) Hc)).
Defined.

Lemma recovery_value_is_bound_to_its_chain_witness :
  calculateSigRecovery (personalSign_v (27 + 0) (Some 31)) (Some 30) = 2
  /\ ~ (calculateSigRecovery (personalSign_v (27 + 0) (Some 31)) (Some 30) = 0
        \/ calculateSigRecovery (personalSign_v (27 + 0) (Some 31)) (Some 30) = 1).
Proof.
  split; [reflexivity |].
  intros Hp.
  assert (Hs : forall c, Some 31 = Some c -> 0 <= c /\ c * 2 + 35 + 0 <= 255)
    by (intros c H; injection H as <-; lia).
  assert (Hg : forall c, Some 30 = Some c -> 0 <= c <= 110)
    by (intros c H; injection H as <-; lia).
  destruct (proj1 (recovery_value_is_bound_to_its_chain 0 (Some 31) (Some 30)
                     (or_introl eq_refl) Hs Hg) Hp) as [[H _] | [_ H]];
    discriminate.
Defined.

Lemma wrong_length_precedes_the_scan_witness :
  exists rawsig,
    base64urlToBytes (compact_signature ++ "aa") = Ok rawsig
    /\ List.length rawsig = 66%nat
    /\ verifyES256K heap "data" (compact_signature ++ "aa") [1%nat] false
       = Throw wrong_signature_length
    /\ verifyRecoverableES256K heap "data" (compact_signature ++ "aa") [1%nat] false None
       = Throw wrong_signature_length.
Proof.
  eexists.
  assert (H : base64urlToBytes (compact_signature ++ "aa") = Ok _)
    by (vm_compute; reflexivity).
  split; [exact H |]. split; [reflexivity |].
  destruct (wrong_length_precedes_the_scan heap "data" (compact_signature ++ "aa")
              [1%nat] false None _ H) as [Hes Hrec].
  split; [apply Hes | apply Hrec]; vm_compute; lia.
Defined.

Lemma no_candidates_witness :
  toSignatureObject compact_signature false None = Ok (mkSig zeros zeros None)
  /\ verifyES256K heap "data" compact_signature [] false = Throw signature_invalid
  /\ verifyEd25519 heap "data" compact_signature [] = Throw signature_invalid
  /\ verifyRecoverableES256K heap "data" compact_signature [] false None
     = Throw signature_invalid.
Proof.
  destruct (no_candidates heap "data" compact_signature false None)
    as (Hes & Hed & _ & Hrec).
  assert (Hsig : toSignatureObject compact_signature false None
                 = Ok (mkSig zeros zeros None)) by (vm_compute; reflexivity).
  split; [exact Hsig |]. split; [exact (Hes _ Hsig) |]. split.
  - apply (Hed (repeat "000"%byte 64)). vm_compute. reflexivity.
  - apply (Hrec [mkSig zeros zeros (Some 0); mkSig zeros zeros (Some 1)]).
    + vm_compute. reflexivity.
    + intros so [<- | [<- | []]]; eexists; vm_compute; reflexivity.
Defined.

Lemma verifyEd25519_sound_witness :
  verifyEd25519 heap "data" compact_signature [5; 4]%nat = Ok 4%nat
  /\ exists sig key,
       base64urlToBytes compact_signature = Ok sig
       /\ base64ToBytes (publicKeyBase64 (heap 4%nat)) = Ok key
       /\ edVerify key (encode "data") sig = Ok true.
Proof.
  assert (H : verifyEd25519 heap "data" compact_signature [5; 4]%nat = Ok 4%nat)
    by (vm_compute; reflexivity).
  split; [exact H |].
  destruct (verifyEd25519_sound heap "data" compact_signature [5; 4]%nat 4%nat H)
    as (sig & key & pre & post & Hsig & _ & Hkey & Hok & _).
  exists sig, key. auto.
Defined.

Lemma verifyEd25519_all_rejected_witness :
  base64urlToBytes compact_signature = Ok (repeat "000"%byte 64)
  /\ verifyEd25519 heap "data" compact_signature [5%nat] = Throw signature_invalid.
Proof.
  assert (Hsig : base64urlToBytes compact_signature = Ok (repeat "000"%byte 64))
    by (vm_compute; reflexivity).
  split; [exact Hsig |].
  apply (verifyEd25519_all_rejected heap "data" compact_signature _ [5%nat] Hsig).
  intros c [<- | []]. eexists. split; vm_compute; reflexivity.
Defined.

Lemma verifyRecoverableES256K_sound_witness :
  verifyRecoverableES256K heap "data" compact_signature [0; 2]%nat false None = Ok 2%nat
  /\ exists so P,
       recoverPubKey (sha256OrPersonal "data" false) so (recoveryParam so) = Ok P
       /\ ethereumAddress (heap 2%nat) = Some (toEthereumAddress (encodePoint P false)).
Proof.
  assert (H : verifyRecoverableES256K heap "data" compact_signature [0; 2]%nat false None
              = Ok 2%nat) by (vm_compute; reflexivity).
  split; [exact H |].
  destruct (verifyRecoverableES256K_sound heap "data" compact_signature [0; 2]%nat
              false None 2%nat H) as (so & P & _ & HP & _ & [Hm | [Hm | Hm]]).
  - discriminate Hm.
  - discriminate Hm.
  - exists so, P. auto.
Defined.

Lemma verifyES256K_sound_witness :
  verifyES256K heap "data" compact_signature [0; 1]%nat false = Ok 1%nat
  /\ exists sigObj,
       toSignatureObject compact_signature false None = Ok sigObj
       /\ In 1%nat [0; 1]%nat.
Proof.
  assert (H : verifyES256K heap "data" compact_signature [0; 1]%nat false = Ok 1%nat)
    by (vm_compute; reflexivity).
  split; [exact H |].
  destruct (verifyES256K_sound heap "data" compact_signature [0; 1]%nat false 1%nat H)
    as (sigObj & Hsig & Hin & _).
  exists sigObj. auto.
Defined.

Lemma only_key_material_is_read_witness :
  type (heap 1%nat) <> type (relabelled 1%nat)
  /\ call heap VerifyES256K "data" compact_signature [0; 1; 2]%nat None None
     = call relabelled VerifyES256K "data" compact_signature [0; 1; 2]%nat None None
  /\ call heap VerifyEd25519 "data" compact_signature [5; 4]%nat None None
     = call relabelled VerifyEd25519 "data" compact_signature [5; 4]%nat None None.
Proof.
  split; [discriminate |]. split.
  - apply (only_key_material_is_read heap relabelled VerifyES256K).
    intros c _. split; reflexivity.
  - apply (only_key_material_is_read heap relabelled VerifyEd25519).
    intros c _. reflexivity.
Defined.

Lemma compact_signature_ignores_chainId_witness :
  (String.length compact_signature <= 86)%nat
  /\ verifyRecoverableES256K heap "data" compact_signature [0; 2]%nat false (Some 31)
     = verifyRecoverableES256K heap "data" compact_signature [0; 2]%nat false None.
Proof.
  assert (Hlen : (String.length compact_signature <= 86)%nat) by (vm_compute; lia).
  split; [exact Hlen |].
  exact (compact_signature_ignores_chainId heap "data" compact_signature [0; 2]%nat
           false (Some 31) None Hlen).
Defined.

Lemma VerifierAlgorithm_outcomes_witness :
  VerifierAlgorithm "EdDSA" = Ok (Own VerifyEd25519)
  /\ VerifierAlgorithm "es256k" = Throw "Unsupported algorithm es256k"
  /\ ~ In "es256k" Object_prototype
  /\ In "valueOf" Object_prototype.
Proof.
  split; [| split].
  - destruct (VerifierAlgorithm_outcomes "EdDSA") as (Hown & _ & _).
    apply Hown. right. right. auto.
  - reflexivity.
  - destruct (VerifierAlgorithm_outcomes "es256k") as (_ & Hthrow & _).
    destruct (Hthrow _ eq_refl) as (_ & _ & Hnot).
    destruct (VerifierAlgorithm_outcomes "valueOf") as (_ & _ & Hinh).
    destruct (Hinh "valueOf" eq_refl) as [_ Hin].
    split; [exact Hnot | exact Hin].
Defined.

Lemma large_chain_id_has_no_recovery_byte_witness :
  toSignatureObject signature_v27 true (Some 137) = Ok (mkSig zeros zeros (Some (-282)))
  /\ exists rawsig,
       base64urlToBytes signature_v27 = Ok rawsig
       /\ (27 <= byte_at rawsig 64 -> -282 < 0).
Proof.
  assert (Hsig : toSignatureObject signature_v27 true (Some 137)
                 = Ok (mkSig zeros zeros (Some (-282)))) by (vm_compute; reflexivity).
  split; [exact Hsig |].
  assert (Hc : 110 < 137) by lia.
  destruct (large_chain_id_has_no_recovery_byte signature_v27 137 _ (-282) Hc Hsig eq_refl)
    as (rawsig & Hraw & _ & Hneg).
  exists rawsig. auto.
Defined.

Lemma either_parity_is_found_witness :
  verifyRecoverableES256K heap_odd "data" compact_signature [4; 0]%nat false None
  = Ok 0%nat
  /\ publicKeyHex (heap_odd 0%nat) = Some (encodePoint ((zeros, true) : point) true).
Proof.
  split; [| reflexivity].
  assert (Hlen : (String.length compact_signature <= 86)%nat) by (vm_compute; lia).
  apply (either_parity_is_found (C := collaborators) heap_odd "data" compact_signature false None
           (mkSig zeros zeros None) ((zeros, false) : point) ((zeros, true) : point)
           [4%nat] [] 0%nat 1 Hlen).
  - vm_compute. reflexivity.
  - vm_compute. reflexivity.
  - vm_compute. reflexivity.
  - now right.
  - intros _ c [<- | [<- | []]]; vm_compute; reflexivity.
  - intros c [<- | []]. vm_compute. reflexivity.
  - vm_compute. reflexivity.
Defined.
